(** * llm-page-parser: the content-extraction pipeline

    A shallow embedding of the six front ends of the repository
    ([parse_local_html.py], [webpage_to_llm.py], [webpage_to_llm_js.py],
    [webpage_to_llm_safari.py], [webpage_to_llm_cookies.py],
    [save_and_parse_arc.py]) and the properties of their extraction
    cascade, candidate scoring, whitespace collapse and truncation.

    Python [str] values are modelled by [string]; a character is a code
    point below 256.  The third-party libraries (BeautifulSoup, trafilatura,
    markdownify, requests, selenium) are collaborators: what the pipeline
    observes of them is a class of functions, and every general statement
    below holds for all instances. *)

From Stdlib Require Import Bool Arith ZArith Lia List Ascii String Permutation.
Import ListNotations.
Local Open Scope list_scope.
Local Open Scope string_scope.

(** ** Python string primitives *)

Module PyStr.

Definition newline : ascii := Ascii.ascii_of_nat 10.

(** [str.isspace] on one character: TAB..CR, FS..US, SPACE, NEL, NBSP. *)
Definition isspace (c : ascii) : bool :=
  let n := nat_of_ascii c in
  (((9 <=? n) && (n <=? 13)) || ((28 <=? n) && (n <=? 32))
   || (n =? 133) || (n =? 160))%nat.

Definition isdigit (c : ascii) : bool :=
  let n := nat_of_ascii c in ((48 <=? n) && (n <=? 57))%nat.

(** [bool(s)]: a string is truthy when it is not empty. *)
Definition truthy (s : string) : bool :=
  match s with EmptyString => false | String _ _ => true end.

Fixpoint lstrip (s : string) : string :=
  match s with
  | EmptyString => EmptyString
  | String c r => if isspace c then lstrip r else s
  end.

Fixpoint rstrip (s : string) : string :=
  match s with
  | EmptyString => EmptyString
  | String c r =>
      match rstrip r with
      | EmptyString => if isspace c then EmptyString else String c EmptyString
      | r' => String c r'
      end
  end.

(** [s.strip()] *)
Definition strip (s : string) : string := rstrip (lstrip s).

(** [s.split('\n')]: always at least one piece. *)
Fixpoint split_nl (s : string) : list string :=
  match s with
  | EmptyString => [EmptyString]
  | String c r =>
      if Ascii.eqb c newline then EmptyString :: split_nl r
      else match split_nl r with
           | h :: t => String c h :: t
           | [] => [String c EmptyString]
           end
  end.

(** ['\n'.join(l)] *)
Definition join_nl (l : list string) : string :=
  String.concat (String newline EmptyString) l.

(** [s[:n]] for a Python integer [n] (a negative [n] counts from the end). *)
Definition slice_to (s : string) (n : Z) : string :=
  if (0 <=? n)%Z then substring 0 (Z.to_nat n) s
  else substring 0 (String.length s - Z.to_nat (- n)) s.

(** [s.startswith(p)] *)
Definition startswith (s p : string) : bool := String.prefix p s.

(** [s.endswith(p)] *)
Definition endswith (s p : string) : bool :=
  (String.length p <=? String.length s)%nat
  && String.eqb (substring (String.length s - String.length p)
                           (String.length p) s) p.

(** [needle in hay] *)
Fixpoint contains (needle hay : string) : bool :=
  String.prefix needle hay
  || match hay with
     | EmptyString => false
     | String _ r => contains needle r
     end.

(** [x in l] for a list of strings *)
Definition in_list (x : string) (l : list string) : bool :=
  existsb (String.eqb x) l.

Fixpoint no_nl (s : string) : bool :=
  match s with
  | EmptyString => true
  | String c r => negb (Ascii.eqb c newline) && no_nl r
  end.

End PyStr.
Import PyStr.

(** ** The whitespace-collapse pass of the Markdown Normalizer

    [lines = [line.strip() for line in content.split('\n')]]
    [content = '\n'.join(line for line in lines if line)] *)

Definition collapse (content : string) : string :=
  let lines := map strip (split_nl content) in
  join_nl (filter truthy lines).

(** ** Truncation ([main] of webpage_to_llm.py and webpage_to_llm_js.py)

    [if args.max_length and len(result) > args.max_length:]
    [    result = result[:args.max_length] + "\n\n[Content truncated...]"] *)

Definition truncation_suffix : string :=
  String newline (String newline "[Content truncated...]").

Definition apply_max_length (max_length : option Z) (result : string) : string :=
  match max_length with
  | None => result
  | Some m =>
      if negb (m =? 0)%Z && (m <? Z.of_nat (String.length result))%Z
      then slice_to result m ++ truncation_suffix
      else result
  end.

(** The lines that [collapse] joins. *)
Definition collapsed_lines (s : string) : list string :=
  filter truthy (map strip (split_nl s)).

(** ** Exceptions, results and the effect monad

    [exn] stands for the subclasses of Python's [Exception]; the message is
    what [str(e)] prints.  A collaborator that can fail returns a [result].
    [M] threads a trace of the extraction stages that were entered, so that
    "stage X was never invoked" is a statement about the trace. *)

Inductive exn : Type :=
| RequestException (msg : string)
| ValueError (msg : string)
| OtherException (msg : string).

Definition str_exn (e : exn) : string :=
  match e with
  | RequestException m | ValueError m | OtherException m => m
  end.

Inductive result (A : Type) : Type :=
| Ok (a : A)
| Raise (e : exn).
Arguments Ok {A} a.
Arguments Raise {A} e.

Inductive event : Type :=
| EngineInvoked      (* trafilatura.extract *)
| ScorerInvoked      (* the BeautifulSoup selector stage *)
| RawTextInvoked.    (* the raw full-text fallback *)

Definition M (A : Type) : Type := (list event * result A)%type.

Definition ret {A : Type} (a : A) : M A := ([], Ok a).

Definition raise {A : Type} (e : exn) : M A := ([], Raise e).

Definition bind {A B : Type} (m : M A) (f : A -> M B) : M B :=
  match m with
  | (t, Ok a) => let (t', r) := f a in ((t ++ t')%list, r)
  | (t, Raise e) => (t, Raise e)
  end.

Definition tell (ev : event) : M unit := ([ev], Ok tt).

Definition lift {A : Type} (r : result A) : M A := ([], r).

(** [try: m except Exception as e: handler e] *)
Definition try_except {A : Type} (m : M A) (handler : exn -> M A) : M A :=
  match m with
  | (t, Raise e) => let (t', r) := handler e in ((t ++ t')%list, r)
  | (t, Ok a) => (t, Ok a)
  end.

Notation "x <- m ;; k" := (bind m (fun x => k))
  (at level 61, m at next level, right associativity).
Notation "m ;;; k" := (bind m (fun _ => k))
  (at level 61, right associativity).

Definition trace_of {A : Type} (m : M A) : list event := fst m.
Definition outcome_of {A : Type} (m : M A) : result A := snd m.

(** [bool(x)] for [x : str | None] *)
Definition truthy_opt (o : option string) : bool :=
  match o with Some s => truthy s | None => false end.

(** [f"{x}"] for [x : str | None] *)
Definition fmt_opt (o : option string) : string :=
  match o with Some s => s | None => "None" end.

(** [x or d] for [x : str | None] *)
Definition or_default (o : option string) (d : string) : string :=
  match o with
  | Some s => if truthy s then s else d
  | None => d
  end.

(** ** Collaborators

    What the pipeline observes of its libraries.  A [Soup] is the state of a
    parsed tree ([decompose] mutates it, so it is threaded explicitly); a
    [Tag] is a handle into it.  Lists are in document order. *)

Inductive string_kind : Type := TextNode | CommentNode | OtherStringNode.

Record NavigableString : Type := mkNavigableString {
  ns_kind : string_kind;
  ns_text : string
}.

Class Collaborators : Type := {
  Soup : Type;
  Tag : Type;
  Cookies : Type;
  (* BeautifulSoup(html, 'html.parser') *)
  BeautifulSoup : string -> Soup;
  (* for e in soup([names]): e.decompose() *)
  decompose_all : Soup -> list string -> Soup;
  (* for e in tag.find_all([names]): e.decompose() *)
  decompose_in : Soup -> Tag -> list string -> Soup;
  (* soup.select(selector); an invalid selector raises *)
  select : Soup -> string -> result (list Tag);
  (* soup.find_all(name) *)
  find_all : Soup -> string -> list Tag;
  (* soup.find('div', class_=c) and soup.find('div', id=i) *)
  find_div_class : Soup -> string -> option Tag;
  find_div_id : Soup -> string -> option Tag;
  (* soup.title, and inside it soup.title.string *)
  soup_title : Soup -> option (option string);
  (* soup.find('meta', attrs={'name': 'description'}), then .get('content', '') *)
  meta_description : Soup -> option string;
  (* every string node of the tree: text, comments, ... *)
  navigable_strings : Soup -> list NavigableString;
  (* tag.get_text(strip=True) *)
  get_text : Soup -> Tag -> string;
  (* tag.get_text(separator='\n', strip=True) *)
  get_text_lines : Soup -> Tag -> string;
  (* soup.get_text(separator='\n', strip=True) *)
  soup_text_lines : Soup -> string;
  (* str(tag) *)
  str_tag : Soup -> Tag -> string;
  (* markdownify(html, heading_style="ATX", bullets="-") *)
  md : string -> result string;
  (* trafilatura.extract(html, output_format='markdown', ..., url=url) *)
  trafilatura_extract : string -> option string -> result (option string);
  (* open(path, encoding='utf-8').read() *)
  read_file : string -> result string;
  (* requests.get(url, headers, timeout, verify) + raise_for_status + .text *)
  requests_get : string -> bool -> result string;
  (* the Chrome session of webpage_to_llm_js.py: (page_source, title) *)
  fetch_with_selenium : string -> Z -> bool -> result (string * string);
  (* the Safari session of webpage_to_llm_safari.py: (page_source, title) *)
  fetch_with_safari : string -> Z -> result (string * string);
  (* urlparse(url).netloc *)
  urlparse_netloc : string -> result string;
  get_chrome_cookies : string -> result Cookies;
  fetch_with_cookies_selenium : string -> Cookies -> result (string * string);
  fetch_with_cookies_requests : string -> Cookies -> result (string * option string);
  (* the AppleScript bridge of save_and_parse_arc.py: (url, title, html) *)
  get_arc_page_source : result (string * string * string);
  (* subprocess.run(['pbcopy'], input=text) *)
  pbcopy : string -> result unit
}.

(** ** Operations derived from the library semantics *)

Section Derived.
Context {C : Collaborators}.

(** [soup.find(name)] is the first result of [find_all]. *)
Definition find (soup : Soup) (name : string) : option Tag :=
  hd_error (find_all soup name).

(** [soup.body] *)
Definition soup_body (soup : Soup) : option Tag := find soup "body".

(** [soup.select_one(selector)] is the first result of [select]. *)
Definition select_one (soup : Soup) (selector : string) : result (option Tag) :=
  match select soup selector with
  | Ok l => Ok (hd_error l)
  | Raise e => Raise e
  end.

(** [soup.find_all(string=pred)] *)
Definition find_all_strings (soup : Soup) (pred : string -> bool)
  : list NavigableString :=
  filter (fun n => pred (ns_text n)) (navigable_strings soup).

(** [len(elem.get_text(strip=True))] *)
Definition text_length (soup : Soup) (elem : Tag) : nat :=
  String.length (get_text soup elem).

End Derived.

(** ** Generic scans over candidate lists *)

Section Scans.
Variable A : Type.
Variable key : A -> nat.

(** One iteration of the score-everything loop: a candidate replaces the
    running best when its key exceeds [floor] and the best's key. *)
Definition consider (floor : nat) (best : option A) (x : A) : option A :=
  if (floor <? key x)%nat then
    match best with
    | None => Some x
    | Some b => if (key b <? key x)%nat then Some x else best
    end
  else best.

Definition scan (floor : nat) (best : option A) (l : list A) : option A :=
  fold_left (consider floor) l best.

(** Python's [max(l, key=key)] on a non-empty list: the first maximal item. *)
Definition py_max (l : list A) : option A :=
  match l with
  | [] => None
  | x :: r =>
      Some (fold_left (fun b y => if (key b <? key y)%nat then y else b) r x)
  end.

(** [l.sort(key=key, reverse=True)]: stable, descending. *)
Fixpoint insert_desc (x : A) (l : list A) : list A :=
  match l with
  | [] => [x]
  | y :: r => if (key x <? key y)%nat then y :: insert_desc x r else x :: l
  end.

Fixpoint sort_desc (l : list A) : list A :=
  match l with
  | [] => []
  | x :: r => insert_desc x (sort_desc r)
  end.

(** [e] occurs in [l], everything before it is strictly smaller and
    nothing after it is larger: the first element of maximal key. *)
Definition first_max (e : A) (l : list A) : Prop :=
  exists l1 l2, l = (l1 ++ e :: l2)%list
    /\ Forall (fun x => key x < key e) l1
    /\ Forall (fun x => key x <= key e) l2.

(** The scan once a best is known. *)
Definition keep (floor : nat) (b x : A) : A :=
  if ((floor <? key x) && (key b <? key x))%nat then x else b.

End Scans.
Arguments first_max {A} key e l.
Arguments keep {A} key floor b x.
Arguments consider {A} key floor best x.
Arguments scan {A} key floor best l.
Arguments py_max {A} key l.
Arguments insert_desc {A} key x l.
Arguments sort_desc {A} key l.

(** ** Regular expression of the URL recovery

    [re.search(r'saved from url=\(\d+\)(https?://[^\s]+)', s)], returning
    group 1 of the leftmost match.  Every quantifier of the pattern is
    followed by a character it cannot itself match (or ends the pattern), so
    the greedy match needs no backtracking. *)

Module Re.

Fixpoint match_literal (lit s : string) : option string :=
  match lit, s with
  | EmptyString, _ => Some s
  | String a lit', String b s' =>
      if Ascii.eqb a b then match_literal lit' s' else None
  | String _ _, EmptyString => None
  end.

Fixpoint take_while (p : ascii -> bool) (s : string) : string :=
  match s with
  | EmptyString => EmptyString
  | String c r => if p c then String c (take_while p r) else EmptyString
  end.

Fixpoint drop_while (p : ascii -> bool) (s : string) : string :=
  match s with
  | EmptyString => EmptyString
  | String c r => if p c then drop_while p r else s
  end.

Definition and_then {A B : Type} (o : option A) (f : A -> option B) : option B :=
  match o with Some a => f a | None => None end.

(** The pattern anchored at the start of [s]. *)
Definition match_here (s : string) : option string :=
  and_then (match_literal "saved from url=(" s) (fun r1 =>
  let r2 := drop_while isdigit r1 in
  if (String.length r2 <? String.length r1)%nat then
    and_then (match_literal ")" r2) (fun r3 =>
    and_then (match_literal "http" r3) (fun r4 =>
    let (scheme, r5) :=
      match match_literal "s" r4 with
      | Some r => ("https", r)
      | None => ("http", r4)
      end in
    and_then (match_literal "://" r5) (fun r6 =>
    let rest := take_while (fun c => negb (isspace c)) r6 in
    if truthy rest then Some (scheme ++ "://" ++ rest) else None)))
  else None).

Fixpoint search (s : string) : option string :=
  match match_here s with
  | Some g => Some g
  | None =>
      match s with
      | EmptyString => None
      | String _ r => search r
      end
  end.

End Re.

(** ** Shared constants *)

Definition dq : string := String (Ascii.ascii_of_nat 34) EmptyString.

(** ["\n---\n"] *)
Definition separator : string :=
  String newline ("---" ++ String newline EmptyString).

Definition or_else {A : Type} (a b : option A) : option A :=
  match a with Some _ => a | None => b end.

(** ** parse_local_html.py *)

Module ParseLocalHtml.
Section Defs.
Context {C : Collaborators}.

(** Lines 25-33: the loop over [soup.find_all(string=...)]. *)
Fixpoint recover_url_loop (comments : list NavigableString) : option string :=
  match comments with
  | [] => None
  | comment :: rest =>
      if contains "saved from url" (ns_text comment) then
        match Re.search (ns_text comment) with
        | Some g => Some (strip g)
        | None => recover_url_loop rest
        end
      else recover_url_loop rest
  end.

Definition recover_url (soup : Soup) : option string :=
  recover_url_loop (find_all_strings soup (contains "saved from url")).

Definition is_comment (n : NavigableString) : bool :=
  match ns_kind n with CommentNode => true | _ => false end.

Definition removed_tags : list string :=
  ["script"; "style"; "nav"; "header"; "footer"; "aside"; "button"].

Definition content_selectors : list string :=
  [ "main"; "article"; "[role=" ++ dq ++ "main" ++ dq ++ "]";
    ".main-content"; "#main-content"; ".content"; "#content";
    ".docs-content"; ".documentation-content"; ".markdown-body";
    ".doc-content"; ".page-content"; ".post-content";
    ".jss4-511";
    "[class*=" ++ dq ++ "makeStyles-content" ++ dq ++ "]";
    "[class*=" ++ dq ++ "TechDocsContent" ++ dq ++ "]";
    "[class*=" ++ dq ++ "MarkdownContent" ++ dq ++ "]";
    ".MuiContainer-root article";
    "div[class*=" ++ dq ++ "jss" ++ dq ++ "][class*=" ++ dq ++ "511" ++ dq ++ "]";
    ".MuiContainer-root"; ".MuiPaper-root";
    "div:has(> h1, > h2, > h3, > p, > ul, > ol, > pre)" ].

(** Lines 96-106: one selector; [except: continue] drops a failing one. *)
Definition selector_step (soup : Soup) (main_content : option Tag)
  (selector : string) : option Tag :=
  match select soup selector with
  | Ok elements => scan (text_length soup) 100 main_content elements
  | Raise _ => main_content
  end.

(** What one selector contributes to the loop, and the sequence of elements
    the whole pass looks at, in the order it looks at them. *)
Definition matches (soup : Soup) (selector : string) : list Tag :=
  match select soup selector with
  | Ok elements => elements
  | Raise _ => []
  end.

Definition encountered (soup : Soup) (selectors : list string) : list Tag :=
  flat_map (matches soup) selectors.

(** Lines 94-106: the selector pass. *)
Definition selector_pass (soup : Soup) (selectors : list string) : option Tag :=
  fold_left (selector_step soup) selectors None.

Definition skip_markers : list string := ["Cookie"; "Accept"; "Login"; "Sign in"].

(** Line 115: the condition under which a div is appended to [text_divs]. *)
Definition is_text_div (soup : Soup) (div : Tag) : bool :=
  let text := get_text soup div in
  (200 <? String.length text)%nat
  && negb (existsb (fun skip => contains skip (slice_to text 100)) skip_markers).

Definition text_divs (soup : Soup) : list (Tag * nat) :=
  map (fun div => (div, String.length (get_text soup div)))
      (filter (is_text_div soup) (find_all soup "div")).

(** Lines 109-120: the largest-text-div pass. *)
Definition largest_text_div (soup : Soup) : option Tag :=
  match sort_desc snd (text_divs soup) with
  | [] => None
  | x :: _ => Some (fst x)
  end.

Definition find_main_content (soup : Soup) : option Tag :=
  match selector_pass soup content_selectors with
  | Some e => Some e
  | None => largest_text_div soup
  end.

(** Lines 42-51. *)
Definition method1 (html : string) (url : option string) (method : string)
  : M (option string) :=
  if in_list method ["trafilatura"; "auto"]
  then tell EngineInvoked ;;; lift (trafilatura_extract html url)
  else ret None.

(** Lines 54-128. *)
Definition method2 (soup : Soup) (content : option string) (method : string)
  : M (Soup * option string) :=
  if negb (truthy_opt content) && in_list method ["beautifulsoup"; "auto"]
  then
    tell ScorerInvoked ;;;
    let soup := decompose_all soup removed_tags in
    match find_main_content soup with
    | Some main_content =>
        markdown <- lift (md (str_tag soup main_content)) ;;
        ret (soup, Some (collapse markdown))
    | None => ret (soup, content)
    end
  else ret (soup, content).

Definition keep_line (line : string) : bool :=
  truthy line && (2 <? String.length line)%nat
  && negb (startswith line "MuiTypography").

Definition clean_text (text : string) : string :=
  join_nl (filter keep_line (map strip (split_nl text))).

(** Lines 131-150. *)
Definition method3 (soup : Soup) (content : option string) : M (option string) :=
  if negb (truthy_opt content)
  then
    tell RawTextInvoked ;;;
    match find soup "body" with
    | Some body =>
        let soup := decompose_in soup body
                      ["script"; "style"; "nav"; "header"; "footer"] in
        ret (Some (clean_text (get_text_lines soup body)))
    | None => ret content
    end
  else ret content.

(** Lines 38-150: the three methods in sequence. *)
Definition cascade (html : string) (soup : Soup) (url : option string)
  (method : string) : M (option string) :=
  content <- method1 html url method ;;
  sc <- method2 soup content method ;;
  method3 (fst sc) (snd sc).

(** Lines 153-160. *)
Definition format_output (title url content : option string) : string :=
  join_nl
    (List.app
       (("# " ++ fmt_opt title)
        :: (if truthy_opt url then ["Source: " ++ fmt_opt url] else []))
       [separator;
        if truthy_opt content then fmt_opt content
        else "No content extracted"]).

Definition parse_html_file (file_path method : string) : M string :=
  html <- lift (read_file file_path) ;;
  let soup := BeautifulSoup html in
  let url := recover_url soup in
  let title := match soup_title soup with
               | Some t => t
               | None => Some "Untitled"
               end in
  content <- cascade html soup url method ;;
  ret (format_output title url content).

End Defs.
End ParseLocalHtml.

(** ** The first-match loop shared by the Arc and Safari front ends

    [for selector in selectors:]
    [    main_content = soup.select_one(selector)]
    [    if main_content: break] *)

Section FirstMatch.
Context {C : Collaborators}.

Fixpoint first_match (soup : Soup) (selectors : list string)
  : result (option Tag) :=
  match selectors with
  | [] => Ok None
  | selector :: rest =>
      match select_one soup selector with
      | Raise e => Raise e
      | Ok (Some main_content) => Ok (Some main_content)
      | Ok None => first_match soup rest
      end
  end.

(** The tail of every [extract_content]: markdownify, then collapse. *)
Definition to_markdown (soup : Soup) (main_content : option Tag)
  : result (option string) :=
  match main_content with
  | None => Ok None
  | Some elem =>
      match md (str_tag soup elem) with
      | Ok markdown => Ok (Some (collapse markdown))
      | Raise e => Raise e
      end
  end.

(** The head of every [extract_content]: the engine call, when the method
    asks for it. *)
Definition engine_stage (html url method : string) : M (option string) :=
  if in_list method ["trafilatura"; "auto"]
  then
    tell EngineInvoked ;;; lift (trafilatura_extract html (Some url))
  else ret None.

End FirstMatch.

(** ** webpage_to_llm.py *)

Module WebpageToLlm.
Section Defs.
Context {C : Collaborators}.

Definition fetch_webpage (url : string) (verify_ssl : bool) : result string :=
  requests_get url verify_ssl.

Definition extract_with_trafilatura (html url : string) : result (option string) :=
  trafilatura_extract html (Some url).

Definition extract_with_beautifulsoup (html url : string)
  : result (option string) :=
  let soup := BeautifulSoup html in
  let soup := decompose_all soup
                ["script"; "style"; "nav"; "header"; "footer"; "aside"] in
  let main_content :=
    or_else (find soup "main")
   (or_else (find soup "article")
   (or_else (find_div_class soup "content")
   (or_else (find_div_id soup "content")
            (soup_body soup)))) in
  to_markdown soup main_content.

Record Metadata : Type := mkMetadata {
  meta_url : string;
  meta_title : option string;
  meta_desc : option string
}.

Definition extract_metadata (soup : Soup) (url : string) : Metadata :=
  mkMetadata url
    (match soup_title soup with Some t => t | None => None end)
    (meta_description soup).

Definition process_webpage (url method : string) (verify_ssl : bool) : M string :=
  try_except
    (html <- lift (fetch_webpage url verify_ssl) ;;
     let soup := BeautifulSoup html in
     let metadata := extract_metadata soup url in
     content <-
       (if in_list method ["trafilatura"; "auto"]
        then tell EngineInvoked ;;; lift (extract_with_trafilatura html url)
        else ret None) ;;
     content <-
       (if negb (truthy_opt content) && in_list method ["beautifulsoup"; "auto"]
        then tell ScorerInvoked ;;; lift (extract_with_beautifulsoup html url)
        else ret content) ;;
     if negb (truthy_opt content)
     then raise (ValueError "Failed to extract content from webpage")
     else
       ret (join_nl
              (List.app
                 ["# " ++ or_default (meta_title metadata) "Untitled";
                  "Source: " ++ url]
                 (List.app
                    (if truthy_opt (meta_desc metadata)
                     then ["Description: " ++ fmt_opt (meta_desc metadata)]
                     else [])
                    [separator; fmt_opt content]))))
    (fun e =>
       match e with
       | RequestException _ => ret ("Error fetching webpage: " ++ str_exn e)
       | _ => ret ("Error processing webpage: " ++ str_exn e)
       end).

End Defs.
End WebpageToLlm.

(** ** webpage_to_llm_js.py *)

Module WebpageToLlmJs.
Section Defs.
Context {C : Collaborators}.

Definition extract_content (html url method : string) : M (option string) :=
  content <- engine_stage html url method ;;
  if truthy_opt content then ret content
  else if in_list method ["beautifulsoup"; "auto"]
  then
    tell ScorerInvoked ;;;
    let soup := BeautifulSoup html in
    let soup := decompose_all soup
                  ["script"; "style"; "nav"; "header"; "footer"; "aside"] in
    let main_content :=
      or_else (find soup "main")
     (or_else (find soup "article")
     (or_else (find_div_class soup "content")
     (or_else (find_div_id soup "content")
     (or_else (find_div_class soup "docs-content")
     (or_else (find_div_class soup "markdown-body")
              (soup_body soup)))))) in
    lift (to_markdown soup main_content)
  else ret None.


End Defs.
End WebpageToLlmJs.

(** ** webpage_to_llm_cookies.py *)

Module WebpageToLlmCookies.
Section Defs.
Context {C : Collaborators}.

Definition extract_content (html url method : string) : M (option string) :=
  content <- engine_stage html url method ;;
  if truthy_opt content then ret content
  else if in_list method ["beautifulsoup"; "auto"]
  then
    tell ScorerInvoked ;;;
    let soup := BeautifulSoup html in
    let soup := decompose_all soup
                  ["script"; "style"; "nav"; "header"; "footer"; "aside"] in
    let main_content :=
      or_else (find soup "main")
     (or_else (find soup "article")
     (or_else (find_div_class soup "content")
     (or_else (find_div_id soup "content")
     (or_else (find_div_class soup "docs-content")
     (or_else (find_div_class soup "markdown-body")
              (soup_body soup)))))) in
    lift (to_markdown soup main_content)
  else ret None.


End Defs.
End WebpageToLlmCookies.

(** ** webpage_to_llm_safari.py *)

Module WebpageToLlmSafari.
Section Defs.
Context {C : Collaborators}.

Definition selectors : list string :=
  [ "main"; "article"; "[role=" ++ dq ++ "main" ++ dq ++ "]";
    ".docs-content"; ".documentation-content"; ".markdown-body";
    ".content-body"; "#content"; ".content"; "div.content";
    ".doc-content"; ".page-content"; ".post-content" ].

(** Lines 106-118. *)
Definition find_main_content (soup : Soup) : result (option Tag) :=
  match first_match soup selectors with
  | Raise e => Raise e
  | Ok main_content =>
      let main_content :=
        match main_content with
        | Some _ => main_content
        | None => py_max (text_length soup) (find_all soup "div")
        end in
      Ok (or_else main_content (soup_body soup))
  end.

Definition extract_content (html url method : string) : M (option string) :=
  content <- engine_stage html url method ;;
  if truthy_opt content then ret content
  else if in_list method ["beautifulsoup"; "auto"]
  then
    tell ScorerInvoked ;;;
    let soup := BeautifulSoup html in
    let soup := decompose_all soup
                  ["script"; "style"; "nav"; "header"; "footer"; "aside"] in
    main_content <- lift (find_main_content soup) ;;
    lift (to_markdown soup main_content)
  else ret None.

Definition process_with_safari (url method : string) (wait_time : Z) : M string :=
  try_except
    (page <- lift (fetch_with_safari url wait_time) ;;
     let (html, title) := page in
     content <- extract_content html url method ;;
     content <-
       (if negb (truthy_opt content)
        then
          tell RawTextInvoked ;;;
          let text := soup_text_lines (BeautifulSoup html) in
          if negb (truthy text)
          then raise (ValueError "Failed to extract content")
          else ret text
        else ret (fmt_opt content)) ;;
     ret (join_nl ["# " ++ or_default (Some title) "Untitled";
                   "Source: " ++ url; separator; content]))
    (fun e => ret ("Error: " ++ str_exn e)).

End Defs.
End WebpageToLlmSafari.

(** ** save_and_parse_arc.py *)

Module SaveAndParseArc.
Section Defs.
Context {C : Collaborators}.

Definition selectors : list string :=
  [ "main"; "article"; "[role=" ++ dq ++ "main" ++ dq ++ "]";
    ".docs-content"; ".documentation-content"; ".markdown-body";
    ".content-body"; "#content"; ".content"; "div.content";
    ".doc-content"; ".page-content"; ".post-content";
    ".MuiContainer-root";
    "[class*=" ++ dq ++ "makeStyles-content" ++ dq ++ "]";
    "[class*=" ++ dq ++ "docs" ++ dq ++ "]";
    "[class*=" ++ dq ++ "documentation" ++ dq ++ "]";
    ".main-content"; "#main-content" ].

(** Lines 118-124: [(d, len(text))] pairs above 100 characters. *)
Definition text_divs (soup : Soup) : list (Tag * nat) :=
  filter (fun d => (100 <? snd d)%nat)
         (map (fun d => (d, text_length soup d)) (find_all soup "div")).

(** Lines 110-127. *)
Definition find_main_content (soup : Soup) : result (option Tag) :=
  match first_match soup selectors with
  | Raise e => Raise e
  | Ok main_content =>
      let main_content :=
        match main_content with
        | Some _ => main_content
        | None => option_map fst (py_max snd (text_divs soup))
        end in
      Ok (or_else main_content (soup_body soup))
  end.

Definition extract_content (html url method : string) : M (option string) :=
  content <- engine_stage html url method ;;
  if truthy_opt content then ret content
  else if in_list method ["beautifulsoup"; "auto"]
  then
    tell ScorerInvoked ;;;
    let soup := BeautifulSoup html in
    let soup := decompose_all soup
                  ["script"; "style"; "nav"; "header"; "footer"; "aside";
                   "button"] in
    main_content <- lift (find_main_content soup) ;;
    lift (to_markdown soup main_content)
  else ret None.

(** What the script leaves behind: its standard output, or an exit status
    with the message written to standard error. *)
Inductive process_outcome : Type :=
| Printed (stdout : string)
| SysExit (code : Z) (stderr : string).

Definition main : M process_outcome :=
  try_except
    (page <- lift get_arc_page_source ;;
     let '(url, title, html) := page in
     content <- extract_content html url "auto" ;;
     content <-
       (if negb (truthy_opt content)
        then tell RawTextInvoked ;;;
             ret (soup_text_lines (BeautifulSoup html))
        else ret (fmt_opt content)) ;;
     let result :=
       join_nl ["# " ++ title; "Source: " ++ url; separator; content] in
     lift (pbcopy result) ;;;
     ret (Printed result))
    (fun e => ret (SysExit 1 ("Error: " ++ str_exn e))).

End Defs.
End SaveAndParseArc.

(** ** A table-driven collaborator set for concrete runs

    A document is given by what its queries answer; [decompose] finds
    nothing to remove and markdownify is the identity. *)

Module Fixture.

Record tag : Type := mkTag { tag_id : nat; tag_text : string }.

Record doc : Type := mkDoc {
  doc_select : list (string * list tag);
  doc_divs : list tag;
  doc_body : option tag;
  doc_title : option (option string);
  doc_strings : list NavigableString;
  doc_text : string;
  doc_engine : result (option string);
  doc_source : result string
}.

Fixpoint lookup (k : string) (t : list (string * list tag)) : list tag :=
  match t with
  | [] => []
  | (k', v) :: r => if String.eqb k k' then v else lookup k r
  end.

Definition with_title {A : Type} (r : result string) (title : A)
  : result (string * A) :=
  match r with
  | Ok html => Ok (html, title)
  | Raise e => Raise e
  end.

Definition env (d : doc) : Collaborators := {|
  Soup := doc;
  Tag := tag;
  Cookies := unit;
  BeautifulSoup := fun _ => d;
  decompose_all := fun s _ => s;
  decompose_in := fun s _ _ => s;
  select := fun s sel => Ok (lookup sel (doc_select s));
  find_all := fun s name =>
    if String.eqb name "div" then doc_divs s
    else if String.eqb name "body"
         then match doc_body s with Some b => [b] | None => [] end
         else lookup name (doc_select s);
  find_div_class := fun _ _ => None;
  find_div_id := fun _ _ => None;
  soup_title := doc_title;
  meta_description := fun _ => None;
  navigable_strings := doc_strings;
  get_text := fun _ t => tag_text t;
  get_text_lines := fun _ t => tag_text t;
  soup_text_lines := doc_text;
  str_tag := fun _ t => tag_text t;
  md := fun s => Ok s;
  trafilatura_extract := fun _ _ => doc_engine d;
  read_file := fun _ => doc_source d;
  requests_get := fun _ _ => doc_source d;
  fetch_with_selenium := fun _ _ _ => with_title (doc_source d) "Docs";
  fetch_with_safari := fun _ _ => with_title (doc_source d) "Docs";
  urlparse_netloc := fun _ => Ok "example.com";
  get_chrome_cookies := fun _ => Ok tt;
  fetch_with_cookies_selenium := fun _ _ => with_title (doc_source d) "Docs";
  fetch_with_cookies_requests := fun _ _ => with_title (doc_source d) None;
  get_arc_page_source :=
    match doc_source d with
    | Ok html => Ok ("https://example.com/page", "Docs", html)
    | Raise e => Raise e
    end;
  pbcopy := fun _ => Ok tt
|}.

Fixpoint replicate (n : nat) (c : ascii) : string :=
  match n with
  | O => EmptyString
  | S k => String c (replicate k c)
  end.

Definition letter_a : ascii := Ascii.ascii_of_nat 97.
Definition letter_b : ascii := Ascii.ascii_of_nat 98.

Definition empty_doc : doc :=
  mkDoc [] [] None None [] "" (Ok None) (Ok "").

(** Two candidates of 101 characters each, under different selectors. *)
Definition tag_main : tag := mkTag 1 (replicate 101 letter_a).
Definition tag_article : tag := mkTag 2 (replicate 101 letter_b).
Definition tie_doc : doc :=
  mkDoc [("main", [tag_main]); ("article", [tag_article])]
        [] None None [] "" (Ok None) (Ok "").

(** A short match, a long match and a longer one further down the list. *)
Definition tag_badge : tag := mkTag 3 (replicate 100 letter_a).
Definition tag_long : tag := mkTag 4 (replicate 150 letter_b).
Definition ranked_doc : doc :=
  mkDoc [("main", [tag_badge; tag_main]); (".content", [tag_long])]
        [] None None [] "" (Ok None) (Ok "").

(** A single match of 101 characters. *)
Definition single_doc : doc :=
  mkDoc [("article", [tag_article])] [] None None [] "" (Ok None) (Ok "").


(** The engine succeeds. *)
Definition engine_doc : doc :=
  mkDoc [("main", [tag_long])] [] None (Some (Some "Docs")) [] ""
        (Ok (Some "Engine output")) (Ok "<html></html>").

(** The marker of a saved page, in a comment and in running text. *)
Definition comment_doc : doc :=
  mkDoc [] [] None None
        [mkNavigableString CommentNode
           " saved from url=(0043)https://example.com/page "]
        "" (Ok None) (Ok "").

Definition text_marker_doc : doc :=
  mkDoc [] [] None None
        [mkNavigableString TextNode
           "The page was saved from url=(0021)http://other.example/ today"]
        "" (Ok None) (Ok "").

(** A long cookie banner and a shorter article, both plain divs. *)
Definition tag_banner : tag :=
  mkTag 5 ("Cookie banner: accept all cookies..." ++ replicate 300 letter_a).
Definition tag_story : tag := mkTag 6 (replicate 201 letter_b).
Definition banner_doc : doc :=
  mkDoc [] [tag_banner; tag_story] None None [] "" (Ok None) (Ok "").

(** No selector matches and no div is long; only a body. *)
Definition tag_body : tag := mkTag 7 "Hi".
Definition body_doc : doc :=
  mkDoc [] [] (Some tag_body) None [] "" (Ok None) (Ok "").

(** No selector matches; one div of 201 characters, and a short body. *)
Definition div_body_doc : doc :=
  mkDoc [] [tag_story] (Some tag_body) None [] "" (Ok None) (Ok "").

(** The score-everything list with its first two selectors exchanged. *)
Definition swapped_selectors : list string :=
  "article" :: "main" :: skipn 2 ParseLocalHtml.content_selectors.

End Fixture.

(** ** Further string primitives *)

Module PyStrMore.

(** The characters of [s] that are not whitespace, in order. *)
Fixpoint nonspace (s : string) : string :=
  match s with
  | EmptyString => EmptyString
  | String c r => if isspace c then nonspace r else String c (nonspace r)
  end.

(** [s.split(sep)] for a non-empty [sep]: a left-to-right scan that cuts at
    every occurrence of [sep] and resumes after it.  [skip] counts the
    characters of a matched separator still to pass, [cur] is the piece
    being read. *)
Fixpoint split_by (sep : string) (skip : nat) (cur : string) (s : string)
  : list string :=
  match s with
  | EmptyString => [cur]
  | String c r =>
      match skip with
      | S k => split_by sep k cur r
      | O =>
          if String.prefix sep s
          then cur :: split_by sep (String.length sep - 1) EmptyString r
          else split_by sep 0 (cur ++ String c EmptyString) r
      end
  end.

Definition split (s sep : string) : list string :=
  split_by sep 0 EmptyString s.

(** The character [|]. *)
Definition bar : ascii := Ascii.ascii_of_nat 124.

Fixpoint no_bar (s : string) : bool :=
  match s with
  | EmptyString => true
  | String c r => negb (Ascii.eqb c bar) && no_bar r
  end.

End PyStrMore.
Import PyStrMore.

(** ** save_and_parse_arc.py: reading the AppleScript answer

    Lines 45-54 of [get_arc_page_source], as a function of the standard
    output of [osascript].  [RuntimeError] is an [OtherException]. *)

Module SaveAndParseArcBridge.

Definition parse_page_source (stdout : string)
  : result (string * string * string) :=
  let output := strip stdout in
  if startswith output "ERROR:" then Raise (OtherException output)
  else
    match split output "|||" with
    | [url; title; html] => Ok (url, title, html)
    | _ => Raise (ValueError "Unexpected AppleScript output format")
    end.

End SaveAndParseArcBridge.

(** ** webpage_to_llm.py: the two handlers of process_webpage

    Lines 134-137: what the function returns for an exception [e] raised
    inside its [try]. *)

Module WebpageToLlmReport.

Definition report (e : exn) : string :=
  match e with
  | RequestException _ => "Error fetching webpage: " ++ str_exn e
  | _ => "Error processing webpage: " ++ str_exn e
  end.

End WebpageToLlmReport.

(** ** A collaborator set in which one selector is rejected *)

Module FixtureMore.

Definition with_failing_selector (C : Collaborators) (bad : string) (e : exn)
  : Collaborators := {|
  Soup := @Soup C;
  Tag := @Tag C;
  Cookies := @Cookies C;
  BeautifulSoup := @BeautifulSoup C;
  decompose_all := @decompose_all C;
  decompose_in := @decompose_in C;
  select := fun s sel =>
    if String.eqb sel bad then Raise e else @select C s sel;
  find_all := @find_all C;
  find_div_class := @find_div_class C;
  find_div_id := @find_div_id C;
  soup_title := @soup_title C;
  meta_description := @meta_description C;
  navigable_strings := @navigable_strings C;
  get_text := @get_text C;
  get_text_lines := @get_text_lines C;
  soup_text_lines := @soup_text_lines C;
  str_tag := @str_tag C;
  md := @md C;
  trafilatura_extract := @trafilatura_extract C;
  read_file := @read_file C;
  requests_get := @requests_get C;
  fetch_with_selenium := @fetch_with_selenium C;
  fetch_with_safari := @fetch_with_safari C;
  urlparse_netloc := @urlparse_netloc C;
  get_chrome_cookies := @get_chrome_cookies C;
  fetch_with_cookies_selenium := @fetch_with_cookies_selenium C;
  fetch_with_cookies_requests := @fetch_with_cookies_requests C;
  get_arc_page_source := @get_arc_page_source C;
  pbcopy := @pbcopy C
|}.

(** A collaborator set in which the clipboard command cannot be run. *)
Definition with_failing_clipboard (C : Collaborators) (e : exn)
  : Collaborators := {|
  Soup := @Soup C;
  Tag := @Tag C;
  Cookies := @Cookies C;
  BeautifulSoup := @BeautifulSoup C;
  decompose_all := @decompose_all C;
  decompose_in := @decompose_in C;
  select := @select C;
  find_all := @find_all C;
  find_div_class := @find_div_class C;
  find_div_id := @find_div_id C;
  soup_title := @soup_title C;
  meta_description := @meta_description C;
  navigable_strings := @navigable_strings C;
  get_text := @get_text C;
  get_text_lines := @get_text_lines C;
  soup_text_lines := @soup_text_lines C;
  str_tag := @str_tag C;
  md := @md C;
  trafilatura_extract := @trafilatura_extract C;
  read_file := @read_file C;
  requests_get := @requests_get C;
  fetch_with_selenium := @fetch_with_selenium C;
  fetch_with_safari := @fetch_with_safari C;
  urlparse_netloc := @urlparse_netloc C;
  get_chrome_cookies := @get_chrome_cookies C;
  fetch_with_cookies_selenium := @fetch_with_cookies_selenium C;
  fetch_with_cookies_requests := @fetch_with_cookies_requests C;
  get_arc_page_source := @get_arc_page_source C;
  pbcopy := fun _ => Raise e
|}.

(** A page with a title element that holds no single string, a page with
    two divs of the same text length, and a page whose main element holds
    only blanks while its body holds text. *)
Definition untitled_doc : Fixture.doc :=
  Fixture.mkDoc [] [] None (Some None) [] "" (Ok (Some "Engine output"))
                (Ok "<html></html>").

Definition two_divs_doc : Fixture.doc :=
  Fixture.mkDoc [] [Fixture.tag_story;
                    Fixture.mkTag 8 (Fixture.replicate 201 Fixture.letter_a)]
                None None [] "" (Ok None) (Ok "").

Definition blank_main_doc : Fixture.doc :=
  Fixture.mkDoc [("main", [Fixture.mkTag 9 "   "])] []
                (Some Fixture.tag_long) None [] "" (Ok None) (Ok "").

End FixtureMore.
(** ** Lemmas on the string primitives *)

Section StringFacts.

Lemma length_app (a b : string) :
  String.length (a ++ b) = String.length a + String.length b.
Proof. induction a as [|c a IH]; simpl; [reflexivity | now rewrite IH]. Qed.

Lemma length_take (n : nat) (s : string) :
  String.length (substring 0 n s) = Nat.min n (String.length s).
Proof.
  revert s; induction n as [|n IH]; intros [|c s]; simpl; try reflexivity.
  now rewrite IH.
Qed.

Lemma substring_skip_app (a b : string) :
  substring (String.length a) (String.length b) (a ++ b) = b.
Proof.
  induction a as [|c a IH]; simpl; [|exact IH].
  induction b as [|d b IHb]; simpl; [reflexivity | now rewrite IHb].
Qed.

Lemma endswith_app (a b : string) : endswith (a ++ b) b = true.
Proof.
  unfold endswith. rewrite length_app.
  replace (String.length a + String.length b - String.length b)
    with (String.length a) by lia.
  rewrite substring_skip_app, String.eqb_refl, andb_true_r.
  apply Nat.leb_le; lia.
Qed.

Lemma lstrip_head (s : string) :
  match lstrip s with
  | EmptyString => True
  | String c _ => isspace c = false
  end.
Proof.
  induction s as [|c s IH]; simpl; [exact I|].
  destruct (isspace c) eqn:E; [exact IH | exact E].
Qed.

Lemma lstrip_fixed (s : string) :
  match s with EmptyString => True | String c _ => isspace c = false end ->
  lstrip s = s.
Proof. destruct s as [|c s]; simpl; [reflexivity|]. now intros ->. Qed.

Lemma rstrip_head (c : ascii) (r : string) :
  isspace c = false -> rstrip (String c r) = String c (rstrip r).
Proof. intros H; simpl. rewrite H. now destruct (rstrip r). Qed.

Lemma rstrip_idem (s : string) : rstrip (rstrip s) = rstrip s.
Proof.
  induction s as [|c s IH]; simpl; [reflexivity|].
  destruct (rstrip s) as [|d r'] eqn:E.
  - destruct (isspace c) eqn:Ec; simpl; [reflexivity | now rewrite Ec].
  - change (rstrip (String c (String d r')) = String c (String d r')).
    simpl. simpl in IH. now rewrite IH.
Qed.

Lemma strip_idem (s : string) : strip (strip s) = strip s.
Proof.
  unfold strip.
  assert (H : lstrip (rstrip (lstrip s)) = rstrip (lstrip s)).
  { apply lstrip_fixed. pose proof (lstrip_head s) as Hh.
    destruct (lstrip s) as [|c r]; [exact I|].
    now rewrite (rstrip_head c r Hh). }
  rewrite H. apply rstrip_idem.
Qed.

Lemma lstrip_no_nl (s : string) : no_nl s = true -> no_nl (lstrip s) = true.
Proof.
  induction s as [|c s IH]; simpl; [reflexivity|].
  intros H. apply andb_true_iff in H as [Hc Hs].
  destruct (isspace c); [now apply IH | simpl; now rewrite Hc, Hs].
Qed.

Lemma rstrip_no_nl (s : string) : no_nl s = true -> no_nl (rstrip s) = true.
Proof.
  induction s as [|c s IH]; simpl; [reflexivity|].
  intros H. apply andb_true_iff in H as [Hc Hs]. specialize (IH Hs).
  destruct (rstrip s) as [|d r'].
  - destruct (isspace c); simpl; [reflexivity | now rewrite Hc].
  - change (no_nl (String c (String d r')) = true).
    simpl. simpl in IH. now rewrite Hc, IH.
Qed.

Lemma strip_no_nl (s : string) : no_nl s = true -> no_nl (strip s) = true.
Proof. intros H. apply rstrip_no_nl, lstrip_no_nl, H. Qed.

Lemma split_nl_nonempty (s : string) : split_nl s <> [].
Proof.
  induction s as [|c s IH]; simpl; [discriminate|].
  destruct (Ascii.eqb c newline); [discriminate|].
  destruct (split_nl s); discriminate.
Qed.

Lemma split_nl_no_nl (s : string) :
  Forall (fun l => no_nl l = true) (split_nl s).
Proof.
  induction s as [|c s IH]; simpl.
  - constructor; [reflexivity | constructor].
  - destruct (Ascii.eqb c newline) eqn:E.
    + constructor; [reflexivity | exact IH].
    + destruct (split_nl s) as [|h t].
      * constructor; [simpl; now rewrite E | constructor].
      * inversion IH; subst. constructor; [simpl; now rewrite E | assumption].
Qed.

Lemma split_nl_line (s : string) : no_nl s = true -> split_nl s = [s].
Proof.
  induction s as [|c s IH]; simpl; [reflexivity|].
  intros H. apply andb_true_iff in H as [Hc Hs].
  apply negb_true_iff in Hc. rewrite Hc, (IH Hs). reflexivity.
Qed.

Lemma split_nl_app (a b : string) :
  no_nl a = true ->
  split_nl (a ++ String newline b) = a :: split_nl b.
Proof.
  induction a as [|c a IH]; simpl; intros H.
  - reflexivity.
  - apply andb_true_iff in H as [Hc Ha]. apply negb_true_iff in Hc.
    rewrite Hc, (IH Ha). reflexivity.
Qed.

Lemma split_join (l : list string) :
  l <> [] -> Forall (fun s => no_nl s = true) l ->
  split_nl (join_nl l) = l.
Proof.
  induction l as [|a l IH]; [congruence|].
  intros _ H. inversion H as [|? ? Ha Hl]; subst.
  destruct l as [|b l].
  - simpl. now apply split_nl_line.
  - change (join_nl (a :: b :: l))
      with (a ++ String newline (join_nl (b :: l))).
    rewrite (split_nl_app a _ Ha). f_equal. apply IH; [discriminate | exact Hl].
Qed.

End StringFacts.

(** ** Whitespace collapse *)

Section Collapse.

Lemma collapsed_lines_no_nl (s : string) :
  Forall (fun l => no_nl l = true) (collapsed_lines s).
Proof.
  unfold collapsed_lines. apply Forall_forall. intros l Hl.
  apply filter_In in Hl as [Hl _]. apply in_map_iff in Hl as [x [<- Hx]].
  apply strip_no_nl. pose proof (split_nl_no_nl s) as H.
  rewrite Forall_forall in H. now apply H.
Qed.

Lemma collapsed_lines_fixed (s : string) :
  filter truthy (map strip (collapsed_lines s)) = collapsed_lines s.
Proof.
  unfold collapsed_lines.
  induction (split_nl s) as [|x l IH]; simpl; [reflexivity|].
  destruct (truthy (strip x)) eqn:E; simpl; [|exact IH].
  rewrite strip_idem, E, IH. reflexivity.
Qed.

(** C9: the whitespace-collapse step is idempotent. *)
Theorem collapse_idempotent (s : string) :
  collapse (collapse s) = collapse s.
Proof.
  unfold collapse. fold (collapsed_lines s).
  destruct (collapsed_lines s) as [|a l] eqn:E; [reflexivity|].
  rewrite split_join.
  - rewrite <- E, collapsed_lines_fixed. reflexivity.
  - discriminate.
  - rewrite <- E. apply collapsed_lines_no_nl.
Qed.

End Collapse.

(** ** Truncation *)

Section Truncation.

(** C8: a positive limit [m] below the length of [s] keeps the first [m]
    characters and appends the suffix; otherwise [s] is unchanged. *)
Theorem apply_max_length_spec (s : string) (m : Z) :
  (0 < m)%Z ->
  ((Z.of_nat (String.length s) > m)%Z ->
     apply_max_length (Some m) s
       = substring 0 (Z.to_nat m) s ++ truncation_suffix
     /\ String.length (apply_max_length (Some m) s)
        = Z.to_nat m + String.length truncation_suffix
     /\ endswith (apply_max_length (Some m) s) truncation_suffix = true)
  /\ ((Z.of_nat (String.length s) <= m)%Z ->
        apply_max_length (Some m) s = s).
Proof.
  intros Hm. unfold apply_max_length, slice_to.
  assert (Hz : (m =? 0)%Z = false) by (apply Z.eqb_neq; lia).
  assert (Hp : (0 <=? m)%Z = true) by (apply Z.leb_le; lia).
  rewrite Hz, Hp. simpl negb. split; intros H.
  - assert (Hl : (m <? Z.of_nat (String.length s))%Z = true)
      by (apply Z.ltb_lt; lia).
    rewrite Hl. simpl andb. cbv iota. repeat split.
    + rewrite length_app, length_take. f_equal. lia.
    + apply endswith_app.
  - assert (Hl : (m <? Z.of_nat (String.length s))%Z = false)
      by (apply Z.ltb_ge; lia).
    rewrite Hl. reflexivity.
Qed.

Lemma apply_max_length_spec_witness :
  apply_max_length (Some 5%Z) "0123456789"
    = "01234" ++ truncation_suffix
  /\ apply_max_length (Some 50%Z) "0123456789" = "0123456789".
Proof.
  split.
  - apply (apply_max_length_spec "0123456789" 5%Z); simpl; lia.
  - apply (apply_max_length_spec "0123456789" 50%Z); simpl; lia.
Defined.

End Truncation.

(** ** Scans: the first element of maximal key *)

Section ScanFacts.
Variable A : Type.
Variable key : A -> nat.

Lemma first_max_in (e : A) (l : list A) : first_max key e l -> In e l.
Proof. intros (l1 & l2 & -> & _). apply in_or_app. right. now left. Qed.

Lemma first_max_ge (e : A) (l : list A) :
  first_max key e l -> forall x, In x l -> key x <= key e.
Proof.
  intros (l1 & l2 & -> & H1 & H2) x Hx.
  rewrite Forall_forall in H1, H2.
  apply in_app_or in Hx as [Hx | [<- | Hx]].
  - apply Nat.lt_le_incl. now apply H1.
  - apply Nat.le_refl.
  - now apply H2.
Qed.

Lemma first_max_cons_lt (a e : A) (l : list A) :
  first_max key e l -> key a < key e -> first_max key e (a :: l).
Proof.
  intros (l1 & l2 & -> & H1 & H2) Ha.
  exists (a :: l1), l2. repeat split; auto.
Qed.

Lemma first_max_cons_ge (a e : A) (l : list A) :
  first_max key e l -> key e <= key a -> first_max key a (a :: l).
Proof.
  intros H Ha. exists [], l. repeat split; [constructor|].
  apply Forall_forall. intros x Hx.
  apply Nat.le_trans with (key e); [|exact Ha].
  now apply (first_max_ge e l H).
Qed.

Lemma first_max_single (a : A) : first_max key a [a].
Proof. exists [], []. repeat split; constructor. Qed.

(** The same list has one first maximum. *)
Lemma first_max_unique (e e' : A) (l : list A) :
  first_max key e l -> first_max key e' l -> e = e'.
Proof.
  intros (l1 & l2 & -> & H1 & H2) (l1' & l2' & E & H1' & H2').
  revert l1' E H1'. induction l1 as [|a l1 IH]; intros [|a' l1'] E H1';
    simpl in E; injection E as Ee El.
  - exact Ee.
  - rewrite El in H2. apply Forall_app in H2 as [_ H2].
    apply Forall_inv in H2. apply Forall_inv in H1'.
    rewrite <- Ee in H1'. lia.
  - rewrite <- El in H2'. apply Forall_app in H2' as [_ H2'].
    apply Forall_inv in H2'. apply Forall_inv in H1.
    rewrite Ee in H1. lia.
  - exact (IH (Forall_inv_tail H1) l1' El (Forall_inv_tail H1')).
Qed.

(** A fold that keeps the running best unless a strictly larger item shows
    up returns the first maximum of the seed followed by the list.  [Inv]
    is what is known of every running best. *)
Lemma fold_first_max (Inv : A -> Prop) (step : A -> A -> A) :
  (forall b x, Inv b ->
     (step b x = x /\ key b < key x /\ Inv x)
     \/ (step b x = b /\ key x <= key b)) ->
  forall l b, Inv b ->
    Inv (fold_left step l b) /\ first_max key (fold_left step l b) (b :: l).
Proof.
  intros Hstep l. induction l as [|x l IH] using rev_ind; intros b Hb.
  - split; [exact Hb | apply first_max_single].
  - rewrite fold_left_app. simpl.
    destruct (IH b Hb) as [Hm IHm]. set (m := fold_left step l b) in *.
    destruct IHm as (l1 & l2 & E & H1 & H2).
    change (b :: l ++ [x])%list with ((b :: l) ++ [x])%list. rewrite E.
    destruct (Hstep m x Hm) as [(-> & Hlt & Hx) | [-> Hle]].
    + split; [exact Hx|].
      exists (l1 ++ m :: l2)%list, []. repeat split.
      * apply Forall_app. split.
        -- eapply Forall_impl; [|exact H1]. simpl. intros; lia.
        -- constructor; [exact Hlt|].
           eapply Forall_impl; [|exact H2]. simpl. intros; lia.
      * constructor.
    + split; [exact Hm|].
      exists l1, (l2 ++ [x])%list. repeat split.
      * now rewrite <- app_assoc.
      * exact H1.
      * apply Forall_app. split; [exact H2 | now constructor].
Qed.

Variable floor : nat.

Lemma scan_some (l : list A) (b : A) :
  scan key floor (Some b) l = Some (fold_left (keep key floor) l b).
Proof.
  revert b. induction l as [|x l IH]; intros b; [reflexivity|].
  unfold scan in *. simpl. unfold consider at 2, keep at 2.
  destruct (floor <? key x)%nat; simpl; [|apply IH].
  destruct (key b <? key x)%nat; apply IH.
Qed.

Lemma keep_step (b x : A) :
  floor < key b ->
  (keep key floor b x = x /\ key b < key x /\ floor < key x)
  \/ (keep key floor b x = b /\ key x <= key b).
Proof.
  intros Hb. unfold keep.
  destruct (floor <? key x)%nat eqn:E1; simpl.
  - destruct (key b <? key x)%nat eqn:E2.
    + left. repeat split; now apply Nat.ltb_lt.
    + right. split; [reflexivity | now apply Nat.ltb_ge].
  - right. split; [reflexivity|]. apply Nat.ltb_ge in E1. lia.
Qed.

Lemma scan_seeded (l : list A) (b : A) :
  floor < key b ->
  exists e, scan key floor (Some b) l = Some e
            /\ floor < key e /\ first_max key e (b :: l).
Proof.
  intros Hb. exists (fold_left (keep key floor) l b). split; [apply scan_some|].
  apply (fold_first_max (fun a => floor < key a) (keep key floor) keep_step l b Hb).
Qed.

(** The score-everything scan from an empty best. *)
Lemma scan_spec (l : list A) :
  match scan key floor None l with
  | None => Forall (fun x => key x <= floor) l
  | Some e => floor < key e /\ first_max key e l
  end.
Proof.
  induction l as [|x l IH]; [constructor|].
  unfold scan in *. simpl. unfold consider at 2.
  destruct (floor <? key x)%nat eqn:E.
  - apply Nat.ltb_lt in E.
    destruct (scan_seeded l x E) as (e & He & Hf & Hm).
    unfold scan in He. rewrite He. now split.
  - apply Nat.ltb_ge in E.
    destruct (fold_left (consider key floor) l None) as [e|].
    + destruct IH as [Hf Hm]. split; [exact Hf|].
      apply first_max_cons_lt; [exact Hm | lia].
    + now constructor.
Qed.

Lemma py_max_spec (l : list A) :
  match py_max key l with
  | None => l = []
  | Some e => first_max key e l
  end.
Proof.
  destruct l as [|x r]; [reflexivity|]. simpl.
  apply (fold_first_max (fun _ => True)); [|exact I]. intros b y _.
  destruct (key b <? key y)%nat eqn:E.
  - left. repeat split. now apply Nat.ltb_lt.
  - right. split; [reflexivity | now apply Nat.ltb_ge].
Qed.

Lemma sort_desc_spec (l : list A) :
  match sort_desc key l with
  | [] => l = []
  | e :: _ => first_max key e l
  end.
Proof.
  induction l as [|a l IH]; [reflexivity|]. simpl.
  destruct (sort_desc key l) as [|y r] eqn:E.
  - subst l. simpl. apply first_max_single.
  - simpl. destruct (key a <? key y)%nat eqn:Ea.
    + apply first_max_cons_lt; [exact IH | now apply Nat.ltb_lt].
    + apply Nat.ltb_ge in Ea. now apply first_max_cons_ge with y.
Qed.

End ScanFacts.

(** ** The score-everything selector pass (parse_local_html.py) *)

Section SelectorPass.
Context {C : Collaborators}.
Import ParseLocalHtml.

Lemma selector_fold (soup : Soup) (sels : list string) (acc : option Tag) :
  fold_left (selector_step soup) sels acc
  = scan (text_length soup) 100 acc (encountered soup sels).
Proof.
  revert acc. induction sels as [|sel sels IH]; intros acc; [reflexivity|].
  simpl. rewrite IH. unfold scan. rewrite fold_left_app. f_equal.
  unfold selector_step, matches, scan. now destruct (select soup sel).
Qed.

Lemma selector_pass_scan (soup : Soup) (sels : list string) :
  selector_pass soup sels
  = scan (text_length soup) 100 None (encountered soup sels).
Proof. apply selector_fold. Qed.

Lemma encountered_perm (soup : Soup) (sels sels' : list string) :
  Permutation sels sels' ->
  Permutation (encountered soup sels) (encountered soup sels').
Proof. intros H. unfold encountered. now apply Permutation_flat_map. Qed.

Lemma selector_pass_spec (soup : Soup) (sels : list string) :
  match selector_pass soup sels with
  | None => Forall (fun x => text_length soup x <= 100) (encountered soup sels)
  | Some e => 100 < text_length soup e
              /\ first_max (text_length soup) e (encountered soup sels)
  end.
Proof. rewrite selector_pass_scan. apply scan_spec. Qed.

(** C10: ties go to the element met first.  Every element the pass met
    before the winner is strictly shorter, so an element of the same
    (maximal) length as the winner can only come after it. *)
Theorem selector_pass_first_of_ties (soup : Soup) (sels : list string) (e : Tag) :
  selector_pass soup sels = Some e ->
  exists before after,
    encountered soup sels = (before ++ e :: after)%list
    /\ Forall (fun x => text_length soup x < text_length soup e) before
    /\ Forall (fun x => text_length soup x <= text_length soup e) after.
Proof.
  intros H. pose proof (selector_pass_spec soup sels) as S.
  rewrite H in S. exact (proj2 S).
Qed.

(** C4: the floor is strict.  An element of exactly 100 characters is never
    the result, a result always has more than 100, and an element of 101
    characters that is the only thing matched is the result. *)
Theorem selector_pass_floor (soup : Soup) (sels : list string) :
  (forall e, text_length soup e = 100 -> selector_pass soup sels <> Some e)
  /\ (forall e, selector_pass soup sels = Some e -> 100 < text_length soup e)
  /\ (forall e, text_length soup e = 101 ->
        In e (encountered soup sels) ->
        (forall x, In x (encountered soup sels) -> x = e) ->
        selector_pass soup sels = Some e).
Proof.
  pose proof (selector_pass_spec soup sels) as S.
  repeat split.
  - intros e He H. rewrite H in S. lia.
  - intros e H. rewrite H in S. tauto.
  - intros e He Hin Honly. destruct (selector_pass soup sels) as [e'|].
    + f_equal. apply Honly. apply (first_max_in _ _ _ _ (proj2 S)).
    + rewrite Forall_forall in S. specialize (S e Hin). lia.
Qed.

(** C2 (amended): the winner has more than 100 characters and no matched
    element is longer; under any permutation of the selector list the
    winner's length is the same, and the winner itself is the same
    whenever no other matched element has that length. *)
Theorem selector_pass_permutation (soup : Soup) (sels sels' : list string) :
  Permutation sels sels' ->
  match selector_pass soup sels with
  | None =>
      selector_pass soup sels' = None
      /\ forall x, In x (encountered soup sels) -> text_length soup x <= 100
  | Some e =>
      In e (encountered soup sels)
      /\ 100 < text_length soup e
      /\ (forall x, In x (encountered soup sels) ->
            text_length soup x <= text_length soup e)
      /\ exists e',
           selector_pass soup sels' = Some e'
           /\ text_length soup e' = text_length soup e
           /\ ((forall x, In x (encountered soup sels) ->
                  text_length soup x = text_length soup e -> x = e) ->
               e' = e)
  end.
Proof.
  intros P. apply (encountered_perm soup) in P.
  pose proof (selector_pass_spec soup sels) as S.
  pose proof (selector_pass_spec soup sels') as S'.
  destruct (selector_pass soup sels) as [e|].
  - destruct S as [Hf Hm].
    pose proof (first_max_in _ _ _ _ Hm) as Hin.
    pose proof (first_max_ge _ _ _ _ Hm) as Hge.
    repeat split; auto.
    destruct (selector_pass soup sels') as [e'|].
    + destruct S' as [Hf' Hm'].
      pose proof (first_max_in _ _ _ _ Hm') as Hin'.
      pose proof (first_max_ge _ _ _ _ Hm') as Hge'.
      assert (Hlen : text_length soup e' = text_length soup e).
      { apply Nat.le_antisymm.
        - apply Hge. apply Permutation_sym in P.
          now apply (Permutation_in _ P).
        - apply Hge'. now apply (Permutation_in _ P). }
      exists e'. repeat split; auto.
      intros U. apply U; [|exact Hlen].
      apply Permutation_sym in P. now apply (Permutation_in _ P).
    + rewrite Forall_forall in S'.
      specialize (S' e (Permutation_in _ P Hin)). lia.
  - rewrite Forall_forall in S. split; [|exact S].
    destruct (selector_pass soup sels') as [e'|]; [|reflexivity].
    destruct S' as [Hf' Hm'].
    pose proof (first_max_in _ _ _ _ Hm') as Hin'.
    apply Permutation_sym in P.
    specialize (S e' (Permutation_in _ P Hin')). lia.
Qed.

End SelectorPass.

(** ** The largest-text-div pass (parse_local_html.py) *)

Section LargestTextDiv.
Context {C : Collaborators}.
Import ParseLocalHtml.

Lemma existsb_false {A : Type} (f : A -> bool) (l : list A) :
  existsb f l = false <-> forall x, In x l -> f x = false.
Proof.
  split.
  - intros H x Hx. destruct (f x) eqn:E; [|reflexivity].
    assert (existsb f l = true) by (apply existsb_exists; eauto).
    congruence.
  - intros H. destruct (existsb f l) eqn:E; [|reflexivity].
    apply existsb_exists in E as (x & Hx & Hf). rewrite (H x Hx) in Hf.
    discriminate.
Qed.

Lemma is_text_div_iff (soup : Soup) (d : Tag) :
  is_text_div soup d = true <->
  200 < text_length soup d
  /\ forall marker, In marker skip_markers ->
       contains marker (slice_to (get_text soup d) 100) = false.
Proof.
  unfold is_text_div, text_length.
  rewrite andb_true_iff, Nat.ltb_lt, negb_true_iff, existsb_false.
  reflexivity.
Qed.

Lemma text_divs_in (soup : Soup) (d : Tag) (n : nat) :
  In (d, n) (text_divs soup) <->
  In d (find_all soup "div") /\ is_text_div soup d = true
  /\ n = text_length soup d.
Proof.
  unfold text_divs, text_length. rewrite in_map_iff. split.
  - intros (x & E & Hx). inversion E; subst.
    apply filter_In in Hx. tauto.
  - intros (Hd & Ht & ->). exists d. split; [reflexivity|].
    apply filter_In. tauto.
Qed.

Lemma prefix_split (p s : string) :
  String.prefix p s = true -> exists r, s = p ++ r.
Proof.
  revert s. induction p as [|c p IH]; intros s H.
  - exists s. reflexivity.
  - destruct s as [|c' s]; [discriminate|]. simpl in H.
    destruct (Ascii.ascii_dec c c') as [->|]; [|discriminate].
    destruct (IH s H) as [r ->]. now exists r.
Qed.

Lemma cookie_banner_marked (text : string) :
  startswith text "Cookie banner: accept all cookies..." = true ->
  contains "Cookie" (slice_to text 100) = true.
Proof.
  intros H. apply prefix_split in H as [r ->]. reflexivity.
Qed.

(** C5: which divs survive, which survivor is taken, and that the pass
    only runs when the selector pass found nothing. *)
Theorem largest_text_div_spec (soup : Soup) :
  (forall d, is_text_div soup d = true <->
     200 < text_length soup d
     /\ forall marker, In marker ["Cookie"; "Accept"; "Login"; "Sign in"] ->
          contains marker (substring 0 100 (get_text soup d)) = false)
  /\ (forall d, largest_text_div soup = Some d ->
        In d (find_all soup "div")
        /\ is_text_div soup d = true
        /\ forall d', In d' (find_all soup "div") ->
             is_text_div soup d' = true ->
             text_length soup d' <= text_length soup d)
  /\ (forall d, In d (find_all soup "div") -> is_text_div soup d = true ->
        largest_text_div soup <> None)
  /\ (forall d,
        startswith (get_text soup d) "Cookie banner: accept all cookies..."
          = true ->
        is_text_div soup d = false /\ largest_text_div soup <> Some d)
  /\ (forall e, selector_pass soup content_selectors = Some e ->
        find_main_content soup = Some e)
  /\ (selector_pass soup content_selectors = None ->
        find_main_content soup = largest_text_div soup).
Proof.
  pose proof (sort_desc_spec _ snd (text_divs soup)) as S.
  assert (Hsome : forall d, largest_text_div soup = Some d ->
            In d (find_all soup "div")
            /\ is_text_div soup d = true
            /\ forall d', In d' (find_all soup "div") ->
                 is_text_div soup d' = true ->
                 text_length soup d' <= text_length soup d).
  { intros d H. unfold largest_text_div in H.
    destruct (sort_desc snd (text_divs soup)) as [|[d0 n] r]; [discriminate|].
    injection H as ->.
    pose proof (first_max_in _ _ _ _ S) as Hin.
    apply text_divs_in in Hin as (Hd & Ht & Hn). repeat split; auto.
    intros d' Hd' Ht'.
    assert (Hin' : In (d', text_length soup d') (text_divs soup))
      by (apply text_divs_in; auto).
    apply (first_max_ge _ _ _ _ S) in Hin'. simpl in Hin'. lia. }
  assert (Hcookie : forall d,
            startswith (get_text soup d) "Cookie banner: accept all cookies..."
              = true -> is_text_div soup d = false).
  { intros d H. apply cookie_banner_marked in H.
    unfold is_text_div. apply andb_false_iff. right.
    apply negb_false_iff. apply existsb_exists.
    exists "Cookie". split; [now left | exact H]. }
  split; [intros d; apply is_text_div_iff|].
  split; [exact Hsome|].
  split.
  { intros d Hd Ht H. unfold largest_text_div in H.
    destruct (sort_desc snd (text_divs soup)); [|discriminate].
    assert (Hin : In (d, text_length soup d) (text_divs soup))
      by (apply text_divs_in; auto).
    rewrite S in Hin. exact Hin. }
  split.
  { intros d H. split; [now apply Hcookie|].
    intros Hl. apply Hsome in Hl as (_ & Ht & _).
    rewrite (Hcookie d H) in Ht. discriminate. }
  unfold find_main_content. split.
  - now intros e ->.
  - now intros ->.
Qed.

End LargestTextDiv.

(** ** The first-match variant (save_and_parse_arc.py, webpage_to_llm_safari.py) *)

Section FirstMatchFacts.
Context {C : Collaborators}.

Lemma first_match_none (soup : Soup) (sels : list string) :
  first_match soup sels = Ok None <->
  Forall (fun s => select soup s = Ok []) sels.
Proof.
  induction sels as [|sel sels IH]; simpl.
  - split; [constructor | reflexivity].
  - unfold select_one.
    destruct (select soup sel) as [[|x l]|err] eqn:E; simpl.
    + rewrite IH. split; [now constructor | now inversion 1].
    + split; [discriminate | inversion 1; congruence].
    + split; [discriminate | inversion 1; congruence].
Qed.

Lemma first_match_some (soup : Soup) (sels : list string) (e : Tag) :
  first_match soup sels = Ok (Some e) <->
  exists s1 sel s2 rest,
    sels = (s1 ++ sel :: s2)%list
    /\ Forall (fun s => select soup s = Ok []) s1
    /\ select soup sel = Ok (e :: rest).
Proof.
  split.
  - induction sels as [|sel sels IH]; simpl; [discriminate|].
    unfold select_one. destruct (select soup sel) as [[|x l]|err] eqn:E; simpl.
    + intros H. destruct (IH H) as (s1 & sel' & s2 & rest & -> & H1 & H2).
      exists (sel :: s1), sel', s2, rest. repeat split; auto.
    + intros H. injection H as ->. exists [], sel, sels, l.
      repeat split; auto.
    + discriminate.
  - intros (s1 & sel & s2 & rest & -> & H1 & H2).
    induction s1 as [|a s1 IH]; simpl; unfold select_one.
    + now rewrite H2.
    + inversion H1 as [|? ? Ha Hs1]; subst. rewrite Ha. simpl.
      now apply IH.
Qed.

Lemma arc_text_divs_in (soup : Soup) (d : Tag) (n : nat) :
  In (d, n) (SaveAndParseArc.text_divs soup) <->
  In d (find_all soup "div") /\ n = text_length soup d /\ 100 < n.
Proof.
  unfold SaveAndParseArc.text_divs. rewrite filter_In, in_map_iff. simpl.
  rewrite Nat.ltb_lt. split.
  - intros [(x & E & Hx) Hn]. inversion E; subst. tauto.
  - intros (Hd & -> & Hn). split; [|exact Hn]. now exists d.
Qed.

Lemma or_else_chain {A : Type} (before after : list (option A)) (e : A)
  (last : option A) :
  Forall (fun o => o = None) before ->
  fold_right or_else last (before ++ Some e :: after)%list = Some e.
Proof.
  induction 1 as [|o before Ho _ IH]; [reflexivity|].
  subst o. exact IH.
Qed.

Lemma or_else_chain_none {A : Type} (candidates : list (option A))
  (last : option A) :
  Forall (fun o => o = None) candidates ->
  fold_right or_else last candidates = last.
Proof.
  induction 1 as [|o l Ho _ IH]; [reflexivity|].
  subst o. exact IH.
Qed.

(** C7: the Arc and Safari front ends take the first match of the selector
    walk as it is; with no match, the div of largest text length (Arc:
    provided it has more than 100 characters), with no look at what the
    text says; with no such div, [soup.body].  The Selenium front ends
    (webpage_to_llm_js.py, webpage_to_llm_cookies.py) walk no selector list
    and look at no div: they take the first element that the fixed chain of
    six [find] calls gives, and [soup.body] when the chain gives none. *)
Theorem first_match_variant (soup : Soup) :
  (forall sels e,
     first_match soup sels = Ok (Some e) <->
     exists s1 sel s2 rest,
       sels = (s1 ++ sel :: s2)%list
       /\ Forall (fun s => select soup s = Ok []) s1
       /\ select soup sel = Ok (e :: rest))
  /\ (forall e, first_match soup WebpageToLlmSafari.selectors = Ok (Some e) ->
        WebpageToLlmSafari.find_main_content soup = Ok (Some e))
  /\ (forall e, first_match soup SaveAndParseArc.selectors = Ok (Some e) ->
        SaveAndParseArc.find_main_content soup = Ok (Some e))
  /\ (first_match soup WebpageToLlmSafari.selectors = Ok None ->
        (find_all soup "div" = [] ->
           WebpageToLlmSafari.find_main_content soup = Ok (soup_body soup))
        /\ (find_all soup "div" <> [] ->
              exists d,
                WebpageToLlmSafari.find_main_content soup = Ok (Some d)
                /\ In d (find_all soup "div")
                /\ forall d', In d' (find_all soup "div") ->
                     text_length soup d' <= text_length soup d))
  /\ (first_match soup SaveAndParseArc.selectors = Ok None ->
        ((forall d, In d (find_all soup "div") -> text_length soup d <= 100) ->
           SaveAndParseArc.find_main_content soup = Ok (soup_body soup))
        /\ ((exists d, In d (find_all soup "div") /\ 100 < text_length soup d) ->
              exists d,
                SaveAndParseArc.find_main_content soup = Ok (Some d)
                /\ In d (find_all soup "div")
                /\ forall d', In d' (find_all soup "div") ->
                     text_length soup d' <= text_length soup d))
  /\ (forall html url method c,
        in_list method ["beautifulsoup"; "auto"] = true ->
        outcome_of (engine_stage html url method) = Ok c ->
        truthy_opt c = false ->
        let page := decompose_all (BeautifulSoup html)
                      ["script"; "style"; "nav"; "header"; "footer";
                       "aside"] in
        let candidates :=
          [ find page "main"; find page "article";
            find_div_class page "content"; find_div_id page "content";
            find_div_class page "docs-content";
            find_div_class page "markdown-body" ] in
        (forall before e after,
           candidates = (before ++ Some e :: after)%list ->
           Forall (fun o => o = None) before ->
           outcome_of (WebpageToLlmJs.extract_content html url method)
           = to_markdown page (Some e)
           /\ outcome_of (WebpageToLlmCookies.extract_content html url method)
              = to_markdown page (Some e))
        /\ (Forall (fun o => o = None) candidates ->
            outcome_of (WebpageToLlmJs.extract_content html url method)
            = to_markdown page (soup_body page)
            /\ outcome_of (WebpageToLlmCookies.extract_content html url method)
               = to_markdown page (soup_body page))).
Proof.
  split; [intros sels e; apply first_match_some|].
  split.
  { intros e H. unfold WebpageToLlmSafari.find_main_content. now rewrite H. }
  split.
  { intros e H. unfold SaveAndParseArc.find_main_content. now rewrite H. }
  split.
  - intros H. unfold WebpageToLlmSafari.find_main_content. rewrite H.
    pose proof (py_max_spec _ (text_length soup) (find_all soup "div")) as S.
    split.
    + intros E. rewrite E. reflexivity.
    + intros NE. destruct (py_max (text_length soup) (find_all soup "div"))
        as [d|]; [|contradiction].
      exists d. split; [reflexivity|]. split.
      * exact (first_max_in _ _ _ _ S).
      * exact (first_max_ge _ _ _ _ S).
  - split.
    2:{ intros html url method c Hm He Hc page candidates.
        assert (R : forall chosen,
                  fold_right or_else (soup_body page) candidates = chosen ->
                  outcome_of (WebpageToLlmJs.extract_content html url method)
                  = to_markdown page chosen
                  /\ outcome_of
                       (WebpageToLlmCookies.extract_content html url method)
                     = to_markdown page chosen).
        { intros chosen <-.
          unfold WebpageToLlmJs.extract_content,
            WebpageToLlmCookies.extract_content.
          destruct (engine_stage html url method) as [t r].
          simpl in He. subst r.
          unfold bind, lift, tell, ret. cbv beta iota.
          rewrite Hc, Hm. split; reflexivity. }
        split.
        - intros before e after Hs Hb. apply R. rewrite Hs.
          now apply or_else_chain.
        - intros Hn. apply R. now apply or_else_chain_none. }
    intros H. unfold SaveAndParseArc.find_main_content. rewrite H.
    pose proof (py_max_spec _ snd (SaveAndParseArc.text_divs soup)) as S.
    split.
    + intros Hall.
      destruct (py_max snd (SaveAndParseArc.text_divs soup)) as [[d n]|];
        [|reflexivity].
      apply first_max_in, arc_text_divs_in in S as (Hd & -> & Hn).
      specialize (Hall d Hd). lia.
    + intros (d0 & Hd0 & Hn0).
      assert (Hin0 : In (d0, text_length soup d0)
                        (SaveAndParseArc.text_divs soup))
        by (apply arc_text_divs_in; auto).
      destruct (py_max snd (SaveAndParseArc.text_divs soup)) as [[d n]|].
      * exists d. simpl. split; [reflexivity|].
        pose proof (first_max_in _ _ _ _ S) as Hin.
        apply arc_text_divs_in in Hin as (Hd & -> & Hn).
        split; [exact Hd|]. intros d' Hd'.
        destruct (Nat.lt_ge_cases 100 (text_length soup d')) as [Hq|Hq];
          [|lia].
        assert (Hin' : In (d', text_length soup d')
                          (SaveAndParseArc.text_divs soup))
          by (apply arc_text_divs_in; auto).
        apply (first_max_ge _ _ _ _ S) in Hin'. exact Hin'.
      * rewrite S in Hin0. contradiction.
Qed.

End FirstMatchFacts.

(** ** The cascade: engine first *)

Section Cascade.
Context {C : Collaborators}.

Lemma truthy_nonempty (s : string) : s <> "" -> truthy s = true.
Proof. destruct s; [congruence | reflexivity]. Qed.

(** C1: with method [auto], when the engine returns a non-empty string the
    result carries that string as its body, and the only stage on the trace
    is the engine: the selector stage is not entered. *)
Theorem engine_first :
  (forall file_path html s,
     read_file file_path = Ok html ->
     trafilatura_extract html
       (ParseLocalHtml.recover_url (BeautifulSoup html)) = Ok (Some s) ->
     s <> "" ->
     let soup := BeautifulSoup html in
     let url := ParseLocalHtml.recover_url soup in
     let title := match soup_title soup with
                  | Some t => t
                  | None => Some "Untitled"
                  end in
     ParseLocalHtml.parse_html_file file_path "auto"
     = ([EngineInvoked],
        Ok (join_nl
              (List.app
                 (("# " ++ fmt_opt title)
                  :: (if truthy_opt url then ["Source: " ++ fmt_opt url]
                      else []))
                 [separator; s])))
     /\ ~ In ScorerInvoked
            (trace_of (ParseLocalHtml.parse_html_file file_path "auto")))
  /\ (forall url verify_ssl html s,
        requests_get url verify_ssl = Ok html ->
        trafilatura_extract html (Some url) = Ok (Some s) ->
        s <> "" ->
        let metadata :=
          WebpageToLlm.extract_metadata (BeautifulSoup html) url in
        WebpageToLlm.process_webpage url "auto" verify_ssl
        = ([EngineInvoked],
           Ok (join_nl
                 (List.app
                    ["# " ++ or_default (WebpageToLlm.meta_title metadata)
                                        "Untitled";
                     "Source: " ++ url]
                    (List.app
                       (if truthy_opt (WebpageToLlm.meta_desc metadata)
                        then ["Description: "
                              ++ fmt_opt (WebpageToLlm.meta_desc metadata)]
                        else [])
                       [separator; s]))))
        /\ ~ In ScorerInvoked
               (trace_of (WebpageToLlm.process_webpage url "auto" verify_ssl))).
Proof.
  split.
  - intros file_path html s Hread Hengine Hs. cbv zeta.
    unfold ParseLocalHtml.parse_html_file, ParseLocalHtml.cascade,
      ParseLocalHtml.method1, ParseLocalHtml.method2, ParseLocalHtml.method3,
      ParseLocalHtml.format_output.
    rewrite Hread. simpl. rewrite Hengine. simpl.
    repeat (rewrite (truthy_nonempty s Hs); simpl).
    split; [reflexivity | intros [H|[]]; discriminate].
  - intros url verify_ssl html s Hget Hengine Hs. cbv zeta.
    unfold WebpageToLlm.process_webpage, WebpageToLlm.fetch_webpage,
      WebpageToLlm.extract_with_trafilatura.
    rewrite Hget. simpl. rewrite Hengine. simpl.
    repeat (rewrite (truthy_nonempty s Hs); simpl).
    split; [reflexivity | intros [H|[]]; discriminate].
Qed.

End Cascade.

(** ** Failure reporting of the entry points *)

Section Failures.
Context {C : Collaborators}.


Lemma outcome_bind {A B : Type} (m : M A) (f : A -> M B) (a : A) :
  outcome_of m = Ok a -> outcome_of (bind m f) = outcome_of (f a).
Proof.
  destruct m as [t r]. simpl. intros ->. simpl. now destruct (f a).
Qed.

Lemma outcome_bind_raise {A B : Type} (m : M A) (f : A -> M B) (e : exn) :
  outcome_of m = Raise e -> outcome_of (bind m f) = Raise e.
Proof. destruct m as [t r]. simpl. now intros ->. Qed.

Lemma outcome_try_raise {A : Type} (m : M A) (h : exn -> M A) (e : exn) :
  outcome_of m = Raise e -> outcome_of (try_except m h) = outcome_of (h e).
Proof.
  destruct m as [t r]. simpl. intros ->. simpl. now destruct (h e).
Qed.

Lemma outcome_try_ok {A : Type} (m : M A) (h : exn -> M A) (a : A) :
  outcome_of m = Ok a -> outcome_of (try_except m h) = Ok a.
Proof. destruct m as [t r]. simpl. now intros ->. Qed.















End Failures.

Section FailureReporting.
Context {C : Collaborators}.


End FailureReporting.

(** ** URL recovery *)

Section UrlRecovery.
Context {C : Collaborators}.
Import ParseLocalHtml.

(** The loop skips every node that lacks the marker, so dropping such
    nodes beforehand changes nothing. *)
Lemma recover_url_loop_filter (p : NavigableString -> bool)
  (l : list NavigableString) :
  (forall n, In n l -> contains "saved from url" (ns_text n) = true ->
             p n = true) ->
  recover_url_loop (filter p l) = recover_url_loop l.
Proof.
  induction l as [|n l IH]; intros H; [reflexivity|].
  assert (IH' : recover_url_loop (filter p l) = recover_url_loop l)
    by (apply IH; intros m Hm; apply H; now right).
  cbn [filter]. destruct (contains "saved from url" (ns_text n)) eqn:E.
  - rewrite (H n (or_introl eq_refl) E). cbn [recover_url_loop].
    rewrite E, IH'. reflexivity.
  - destruct (p n); cbn [recover_url_loop]; rewrite E; exact IH'.
Qed.

(** When the marker only occurs in comments, the recovery is the scan of
    the comments alone. *)
Lemma recover_url_comments_only (soup : Soup) :
  (forall n, In n (navigable_strings soup) ->
             contains "saved from url" (ns_text n) = true ->
             ns_kind n = CommentNode) ->
  recover_url soup
  = recover_url_loop (filter is_comment (navigable_strings soup)).
Proof.
  intros H. unfold recover_url, find_all_strings.
  rewrite recover_url_loop_filter by auto.
  symmetry. apply recover_url_loop_filter.
  intros n Hn Hc. unfold is_comment. now rewrite (H n Hn Hc).
Qed.

End UrlRecovery.

(** ** Concrete runs *)

Section Runs.
Import Fixture.

Lemma collapse_example :
  collapse ("  # Hi  " ++ String newline (String newline "  World "))
  = "# Hi" ++ String newline "World".
Proof. reflexivity. Qed.

Lemma engine_first_witness :
  ParseLocalHtml.parse_html_file (C := env engine_doc) "page.html" "auto"
  = ([EngineInvoked],
     Ok (join_nl ["# Docs"; separator; "Engine output"]))
  /\ WebpageToLlm.process_webpage (C := env engine_doc)
       "https://example.com/page" "auto" true
     = ([EngineInvoked],
        Ok (join_nl ["# Docs"; "Source: https://example.com/page";
                     separator; "Engine output"])).
Proof.
  destruct (engine_first (C := env engine_doc)) as [P W]. split.
  - apply (P "page.html" "<html></html>" "Engine output");
      [reflexivity | reflexivity | discriminate].
  - apply (W "https://example.com/page" true "<html></html>" "Engine output");
      [reflexivity | reflexivity | discriminate].
Defined.

Lemma selector_pass_permutation_witness :
  Permutation ParseLocalHtml.content_selectors swapped_selectors
  /\ exists e',
       ParseLocalHtml.selector_pass (C := env ranked_doc) ranked_doc
         swapped_selectors = Some e'
       /\ String.length (tag_text e') = 150
       /\ ((forall x,
              In x (ParseLocalHtml.encountered (C := env ranked_doc)
                      ranked_doc ParseLocalHtml.content_selectors) ->
              String.length (tag_text x) = 150 -> x = tag_long) ->
           e' = tag_long).
Proof.
  assert (P : Permutation ParseLocalHtml.content_selectors swapped_selectors)
    by apply perm_swap.
  split; [exact P|].
  exact (proj2 (proj2 (proj2
           (selector_pass_permutation (C := env ranked_doc) ranked_doc
              ParseLocalHtml.content_selectors swapped_selectors P)))).
Defined.

(** C2, as stated, fails on a tie: two matched elements of 101 characters
    each, neither strictly longest, and the winner changes when the first
    two selectors of the list are exchanged. *)
Lemma selector_order_decides_ties :
  Permutation ParseLocalHtml.content_selectors swapped_selectors
  /\ String.length (tag_text tag_main) = String.length (tag_text tag_article)
  /\ ParseLocalHtml.selector_pass (C := env tie_doc) tie_doc
       ParseLocalHtml.content_selectors = Some tag_main
  /\ ParseLocalHtml.selector_pass (C := env tie_doc) tie_doc
       swapped_selectors = Some tag_article
  /\ tag_main <> tag_article.
Proof.
  split; [apply perm_swap|].
  split; [reflexivity|].
  split; [vm_compute; reflexivity|].
  split; [vm_compute; reflexivity|].
  discriminate.
Qed.

Lemma selector_pass_floor_witness :
  ParseLocalHtml.selector_pass (C := env ranked_doc) ranked_doc
    ParseLocalHtml.content_selectors <> Some tag_badge
  /\ ParseLocalHtml.selector_pass (C := env single_doc) single_doc
       ParseLocalHtml.content_selectors = Some tag_article.
Proof.
  split.
  - apply (proj1 (selector_pass_floor (C := env ranked_doc) ranked_doc
                    ParseLocalHtml.content_selectors) tag_badge).
    reflexivity.
  - apply (proj2 (proj2 (selector_pass_floor (C := env single_doc) single_doc
                           ParseLocalHtml.content_selectors)) tag_article).
    + reflexivity.
    + vm_compute. left. reflexivity.
    + vm_compute. intros x [H|[]]. symmetry. exact H.
Defined.

Lemma selector_pass_first_of_ties_witness :
  exists before after,
    ParseLocalHtml.encountered (C := env tie_doc) tie_doc
      ParseLocalHtml.content_selectors
    = (before ++ tag_main :: after)%list
    /\ Forall (fun x => String.length (tag_text x)
                        < String.length (tag_text tag_main)) before
    /\ Forall (fun x => String.length (tag_text x)
                        <= String.length (tag_text tag_main)) after.
Proof.
  apply (selector_pass_first_of_ties (C := env tie_doc) tie_doc
           ParseLocalHtml.content_selectors tag_main).
  vm_compute. reflexivity.
Defined.

Lemma largest_text_div_spec_witness :
  (tag_text tag_banner <> "" -> True)
  /\ ParseLocalHtml.is_text_div (C := env banner_doc) banner_doc tag_banner
     = false
  /\ ParseLocalHtml.largest_text_div (C := env banner_doc) banner_doc
     <> Some tag_banner
  /\ ParseLocalHtml.largest_text_div (C := env banner_doc) banner_doc
     <> None.
Proof.
  destruct (largest_text_div_spec (C := env banner_doc) banner_doc)
    as (_ & _ & Hsome & Hcookie & _).
  split; [trivial|].
  split; [|split].
  - apply (Hcookie tag_banner). reflexivity.
  - apply (Hcookie tag_banner). reflexivity.
  - apply (Hsome tag_story).
    + vm_compute. right. left. reflexivity.
    + vm_compute. reflexivity.
Defined.

Lemma first_match_variant_witness :
  WebpageToLlmSafari.find_main_content (C := env ranked_doc) ranked_doc
  = Ok (Some tag_badge)
  /\ SaveAndParseArc.find_main_content (C := env ranked_doc) ranked_doc
     = Ok (Some tag_badge)
  /\ WebpageToLlmSafari.find_main_content (C := env body_doc) body_doc
     = Ok (Some tag_body)
  /\ SaveAndParseArc.find_main_content (C := env body_doc) body_doc
     = Ok (Some tag_body)
  /\ (exists d,
        SaveAndParseArc.find_main_content (C := env banner_doc) banner_doc
        = Ok (Some d)
        /\ In d [tag_banner; tag_story]
        /\ forall d', In d' [tag_banner; tag_story] ->
             String.length (tag_text d') <= String.length (tag_text d))
  /\ outcome_of
       (WebpageToLlmJs.extract_content (C := env ranked_doc)
          "" "https://example.com/page" "beautifulsoup")
     = Ok (Some (tag_text tag_badge))
  /\ outcome_of
       (WebpageToLlmCookies.extract_content (C := env body_doc)
          "" "https://example.com/page" "auto")
     = Ok (Some "Hi").
Proof.
  split; [|split; [|split; [|split; [|split; [|split]]]]].
  - apply (proj1 (proj2 (first_match_variant (C := env ranked_doc)
                           ranked_doc)) tag_badge).
    vm_compute. reflexivity.
  - apply (proj1 (proj2 (proj2 (first_match_variant (C := env ranked_doc)
                                  ranked_doc))) tag_badge).
    vm_compute. reflexivity.
  - destruct (first_match_variant (C := env body_doc) body_doc)
      as (_ & _ & _ & S & _).
    apply S; vm_compute; reflexivity.
  - destruct (first_match_variant (C := env body_doc) body_doc)
      as (_ & _ & _ & _ & A & _).
    apply A; [vm_compute; reflexivity|]. intros d [].
  - destruct (first_match_variant (C := env banner_doc) banner_doc)
      as (_ & _ & _ & _ & A & _).
    apply A; [vm_compute; reflexivity|].
    exists tag_story. split; [right; left; reflexivity|].
    apply Nat.ltb_lt. vm_compute. reflexivity.
  - destruct (first_match_variant (C := env ranked_doc) ranked_doc)
      as (_ & _ & _ & _ & _ & S).
    destruct (S "" "https://example.com/page" "beautifulsoup" None
                eq_refl eq_refl eq_refl) as [F _].
    exact (proj1 (F [] tag_badge
                    [None; None; None; None; None] eq_refl (Forall_nil _))).
  - destruct (first_match_variant (C := env body_doc) body_doc)
      as (_ & _ & _ & _ & _ & S).
    destruct (S "" "https://example.com/page" "auto" None
                eq_refl eq_refl eq_refl) as [_ B].
    apply B. repeat constructor.
Defined.

(** C7, as stated for the Selenium front ends, fails on a page where no
    selector and no [find] of the chain matches, one div holds 201
    characters and the body holds two: the Safari and Arc front ends take
    the div, the two Selenium front ends take the body. *)
Lemma selenium_front_ends_skip_divs :
  first_match (C := env div_body_doc) div_body_doc
    WebpageToLlmSafari.selectors = Ok None
  /\ find_all (Collaborators := env div_body_doc) div_body_doc "div"
     = [tag_story]
  /\ String.length (tag_text tag_story) = 201
  /\ WebpageToLlmSafari.find_main_content (C := env div_body_doc) div_body_doc
     = Ok (Some tag_story)
  /\ SaveAndParseArc.find_main_content (C := env div_body_doc) div_body_doc
     = Ok (Some tag_story)
  /\ WebpageToLlmSafari.extract_content (C := env div_body_doc)
       "" "https://example.com/page" "beautifulsoup"
     = ([ScorerInvoked], Ok (Some (tag_text tag_story)))
  /\ WebpageToLlmJs.extract_content (C := env div_body_doc)
       "" "https://example.com/page" "beautifulsoup"
     = ([ScorerInvoked], Ok (Some "Hi"))
  /\ WebpageToLlmCookies.extract_content (C := env div_body_doc)
       "" "https://example.com/page" "beautifulsoup"
     = ([ScorerInvoked], Ok (Some "Hi"))
  /\ tag_text tag_story <> "Hi".
Proof.
  repeat split; try (vm_compute; reflexivity).
  vm_compute. discriminate.
Qed.



(** The sample of the URL recovery: a comment left by the browser. *)
Lemma recover_url_saved_comment :
  ParseLocalHtml.recover_url (C := env comment_doc) comment_doc
  = Some "https://example.com/page".
Proof. reflexivity. Qed.

(** C6: the recovery does not look at the kind of a string node.  A
    document with no comment at all, whose running text quotes the marker,
    gets the quoted URL as its source. *)
Theorem recover_url_reads_text_nodes :
  Forall (fun n => ns_kind n <> CommentNode)
         (navigable_strings (Collaborators := env text_marker_doc)
            text_marker_doc)
  /\ ParseLocalHtml.recover_url (C := env text_marker_doc) text_marker_doc
     = Some "http://other.example/".
Proof.
  split; [|reflexivity].
  constructor; [discriminate | constructor].
Qed.

End Runs.

(** ** Whitespace collapse: what it keeps and what it leaves *)

Section CollapseMore.

Lemma append_empty_r (s : string) : s ++ "" = s.
Proof. induction s as [|c s IH]; simpl; [reflexivity | now rewrite IH]. Qed.

Lemma newline_isspace : isspace newline = true.
Proof. reflexivity. Qed.

Lemma nonspace_app (a b : string) :
  nonspace (a ++ b) = nonspace a ++ nonspace b.
Proof.
  induction a as [|c a IH]; simpl; [reflexivity|].
  destruct (isspace c); simpl; now rewrite IH.
Qed.

Lemma nonspace_lstrip (s : string) : nonspace (lstrip s) = nonspace s.
Proof.
  induction s as [|c s IH]; simpl; [reflexivity|].
  destruct (isspace c) eqn:E; [exact IH | simpl; now rewrite E].
Qed.

Lemma nonspace_rstrip (s : string) : nonspace (rstrip s) = nonspace s.
Proof.
  induction s as [|c s IH]; [reflexivity|].
  cbn [rstrip]. destruct (rstrip s) as [|d r'].
  - cbn [nonspace] in *. destruct (isspace c) eqn:E.
    + exact IH.
    + cbn [nonspace]. now rewrite E, <- IH.
  - change (nonspace (String c (String d r')) = nonspace (String c s)).
    cbn [nonspace] in *. now rewrite IH.
Qed.

Lemma nonspace_strip (s : string) : nonspace (strip s) = nonspace s.
Proof. unfold strip. now rewrite nonspace_rstrip, nonspace_lstrip. Qed.

Lemma concat_cons (x : string) (l : list string) :
  String.concat "" (x :: l) = x ++ String.concat "" l.
Proof.
  destruct l as [|y l]; simpl; [symmetry; apply append_empty_r | reflexivity].
Qed.

Lemma nonspace_split (s : string) :
  String.concat "" (map nonspace (split_nl s)) = nonspace s.
Proof.
  induction s as [|c s IH]; [reflexivity|].
  cbn [split_nl]. destruct (Ascii.eqb c newline) eqn:E.
  - apply Ascii.eqb_eq in E. subst c. cbn [map]. rewrite concat_cons, IH.
    cbn [nonspace]. now rewrite newline_isspace.
  - destruct (split_nl s) as [|h t] eqn:Es.
    + now destruct (split_nl_nonempty s).
    + cbn [map] in *. rewrite concat_cons in *. cbn [nonspace].
      destruct (isspace c); [exact IH|].
      cbn [append]. now rewrite IH.
Qed.

Lemma nonspace_join (l : list string) :
  nonspace (join_nl l) = String.concat "" (map nonspace l).
Proof.
  induction l as [|a l IH]; [reflexivity|].
  destruct l as [|b l].
  - reflexivity.
  - change (join_nl (a :: b :: l))
      with (a ++ String newline (join_nl (b :: l))).
    rewrite nonspace_app. cbn [nonspace]. rewrite newline_isspace, IH.
    cbn [map]. now rewrite (concat_cons (nonspace a)).
Qed.

Lemma nonspace_filter (p : string -> bool) (l : list string) :
  (forall x, p x = false -> nonspace x = "") ->
  String.concat "" (map nonspace (filter p l))
  = String.concat "" (map nonspace l).
Proof.
  intros H. induction l as [|x l IH]; [reflexivity|].
  cbn [filter map]. destruct (p x) eqn:E.
  - cbn [map]. now rewrite !concat_cons, IH.
  - rewrite concat_cons, (H x E). exact IH.
Qed.

Lemma nonspace_map_strip (l : list string) :
  map nonspace (map strip l) = map nonspace l.
Proof.
  induction l as [|x l IH]; [reflexivity|].
  cbn [map]. now rewrite nonspace_strip, IH.
Qed.

Lemma nonspace_lines (p : string -> bool) (s : string) :
  (forall x, p x = false -> nonspace x = "") ->
  nonspace (join_nl (filter p (map strip (split_nl s)))) = nonspace s.
Proof.
  intros H. rewrite nonspace_join, (nonspace_filter p _ H).
  now rewrite nonspace_map_strip, nonspace_split.
Qed.

Lemma nonspace_collapse (s : string) : nonspace (collapse s) = nonspace s.
Proof.
  apply (nonspace_lines truthy).
  intros [|c x]; [reflexivity | discriminate].
Qed.

(** X1: the collapse only removes whitespace.  The characters that are not
    whitespace come out exactly as they went in, none dropped, none added,
    none reordered. *)
Theorem collapse_keeps_nonspace (s : string) :
  nonspace (collapse s) = nonspace s.
Proof. exact (nonspace_collapse s). Qed.

Lemma stripped_head (y : string) :
  match strip y with
  | EmptyString => True
  | String c _ => isspace c = false
  end.
Proof.
  unfold strip. pose proof (lstrip_head y) as H.
  destruct (lstrip y) as [|c r]; [exact I|].
  now rewrite (rstrip_head c r H).
Qed.

Lemma join_head (a : string) (l : list string) :
  a <> "" ->
  exists c r, a = String c r /\ exists r', join_nl (a :: l) = String c r'.
Proof.
  intros Ha. destruct a as [|c r]; [congruence|].
  exists c, r. split; [reflexivity|].
  destruct l as [|b l]; [now exists r|].
  now exists (r ++ String newline (join_nl (b :: l))).
Qed.

Lemma collapsed_lines_clean (s : string) :
  Forall (fun l => l <> "" /\ strip l = l) (collapsed_lines s).
Proof.
  unfold collapsed_lines. apply Forall_forall. intros l Hl.
  apply filter_In in Hl as [Hl Ht]. apply in_map_iff in Hl as [x [<- _]].
  split; [|apply strip_idem].
  intros E. rewrite E in Ht. discriminate.
Qed.

Lemma collapse_empty_iff (s : string) : collapse s = "" <-> nonspace s = "".
Proof.
  pose proof (collapsed_lines_clean s) as Hc.
  assert (E : collapse s = join_nl (collapsed_lines s)) by reflexivity.
  split.
  - intros H. rewrite <- nonspace_collapse, H. reflexivity.
  - intros H. rewrite <- nonspace_collapse in H. rewrite E in *.
    destruct (collapsed_lines s) as [|a l] eqn:El; [reflexivity|].
    exfalso. apply Forall_inv in Hc. destruct Hc as [Ha Hs].
    destruct (join_head a l Ha) as (c & r & -> & r' & Hj).
    rewrite Hj in H. cbn [nonspace] in H.
    pose proof (stripped_head (String c r)) as Hh. rewrite Hs in Hh.
    rewrite Hh in H. discriminate.
Qed.

(** X2: the output of the collapse is empty exactly when the input holds
    nothing but whitespace; otherwise every line of it is non-empty and has
    no whitespace at either end. *)
Theorem collapse_lines_clean (s : string) :
  (collapse s = "" <-> nonspace s = "")
  /\ (collapse s <> "" ->
      Forall (fun l => l <> "" /\ strip l = l) (split_nl (collapse s))).
Proof.
  pose proof (collapsed_lines_clean s) as Hc.
  pose proof (collapsed_lines_no_nl s) as Hn.
  assert (E : collapse s = join_nl (collapsed_lines s)) by reflexivity.
  split; [apply collapse_empty_iff|].
  - intros H. rewrite E in *.
    destruct (collapsed_lines s) as [|a l] eqn:El; [now destruct H|].
    rewrite split_join; [exact Hc | discriminate | exact Hn].
Qed.

End CollapseMore.

Lemma collapse_lines_clean_witness :
  Forall (fun l => l <> "" /\ strip l = l)
    (split_nl (collapse ("  # Title  "
                         ++ String newline (String newline "  body text ")))).
Proof.
  apply (proj2 (collapse_lines_clean _)). vm_compute. discriminate.
Defined.

(** ** The raw-text cleanup of parse_local_html.py *)

Section CleanText.
Import ParseLocalHtml.

Lemma keep_line_empty : keep_line "" = false.
Proof. reflexivity. Qed.

Lemma kept_lines_fixed (p : string -> bool) (t : string) :
  filter p (map strip (filter p (map strip (split_nl t))))
  = filter p (map strip (split_nl t)).
Proof.
  induction (split_nl t) as [|x l IH]; [reflexivity|].
  cbn [map filter]. destruct (p (strip x)) eqn:E; [|exact IH].
  cbn [map filter]. rewrite strip_idem, E, IH. reflexivity.
Qed.

Lemma kept_lines_no_nl (p : string -> bool) (t : string) :
  Forall (fun l => no_nl l = true) (filter p (map strip (split_nl t))).
Proof.
  apply Forall_forall. intros l Hl.
  apply filter_In in Hl as [Hl _]. apply in_map_iff in Hl as [x [<- Hx]].
  apply strip_no_nl. pose proof (split_nl_no_nl t) as H.
  rewrite Forall_forall in H. now apply H.
Qed.

(** X3: the cleanup of the raw page text is idempotent, and each line it
    leaves is stripped, longer than two characters and does not start with
    "MuiTypography". *)
Theorem clean_text_spec (t : string) :
  clean_text (clean_text t) = clean_text t
  /\ (clean_text t <> "" ->
      Forall (fun l => 2 < String.length l
                       /\ startswith l "MuiTypography" = false
                       /\ strip l = l)
             (split_nl (clean_text t))).
Proof.
  unfold clean_text.
  set (L := filter keep_line (map strip (split_nl t))).
  assert (Hn : Forall (fun l => no_nl l = true) L)
    by apply kept_lines_no_nl.
  assert (Hk : Forall (fun l => 2 < String.length l
                                /\ startswith l "MuiTypography" = false
                                /\ strip l = l) L).
  { apply Forall_forall. intros l Hl. unfold L in Hl.
    apply filter_In in Hl as [Hl Hp]. apply in_map_iff in Hl as [x [<- _]].
    unfold keep_line in Hp.
    apply andb_true_iff in Hp as [Hp H3]. apply andb_true_iff in Hp as [_ H2].
    apply Nat.ltb_lt in H2. apply negb_true_iff in H3.
    repeat split; auto using strip_idem. }
  destruct L as [|a l] eqn:EL.
  - split; [reflexivity | intros H; now destruct H].
  - assert (Es : split_nl (join_nl (a :: l)) = a :: l)
      by (apply split_join; [discriminate | exact Hn]).
    split.
    + rewrite Es, <- EL. unfold L. now rewrite kept_lines_fixed.
    + intros _. now rewrite Es.
Qed.

End CleanText.

Lemma clean_text_spec_witness :
  Forall (fun l => 2 < String.length l
                   /\ startswith l "MuiTypography" = false
                   /\ strip l = l)
    (split_nl (ParseLocalHtml.clean_text
                 ("  Overview of the API "
                  ++ String newline ("ok"
                  ++ String newline " MuiTypography-root ")))).
Proof.
  apply (proj2 (clean_text_spec _)). vm_compute. discriminate.
Defined.

(** ** Truncation outside the positive range *)

Section TruncationMore.

(** X4: no limit and a limit of 0 both leave the output alone; a negative
    limit always truncates, cutting that many characters off the end
    before the suffix is appended. *)
Theorem apply_max_length_edges (s : string) :
  apply_max_length None s = s
  /\ apply_max_length (Some 0%Z) s = s
  /\ forall m, (m < 0)%Z ->
       apply_max_length (Some m) s
       = substring 0 (String.length s - Z.to_nat (- m)) s ++ truncation_suffix
       /\ String.length (apply_max_length (Some m) s)
          = (String.length s - Z.to_nat (- m))
            + String.length truncation_suffix.
Proof.
  split; [reflexivity|]. split; [reflexivity|].
  intros m Hm. unfold apply_max_length, slice_to.
  assert (Hz : (m =? 0)%Z = false) by (apply Z.eqb_neq; lia).
  assert (Hl : (m <? Z.of_nat (String.length s))%Z = true)
    by (apply Z.ltb_lt; lia).
  assert (Hp : (0 <=? m)%Z = false) by (apply Z.leb_gt; lia).
  rewrite Hz, Hl, Hp. cbn [negb andb]. split; [reflexivity|].
  rewrite length_app, length_take. f_equal. lia.
Qed.

Lemma apply_max_length_edges_witness :
  apply_max_length (Some (-3)%Z) "0123456789"
  = "0123456" ++ truncation_suffix
  /\ String.length (apply_max_length (Some (-3)%Z) "0123456789") = 7 + 24.
Proof.
  apply (proj2 (proj2 (apply_max_length_edges "0123456789")) (-3)%Z). lia.
Defined.

End TruncationMore.

(** ** More on the score-everything scorer *)

Section ScorerMore.
Context {C : Collaborators}.
Import ParseLocalHtml.

Lemma encountered_app (soup : Soup) (a b : list string) :
  encountered soup (a ++ b)%list
  = (encountered soup a ++ encountered soup b)%list.
Proof. unfold encountered. apply flat_map_app. Qed.

(** X5: a selector that [soup.select] rejects, or that matches nothing,
    is passed over: the pass gives what it gives without that selector,
    wherever in the list it stands. *)
Theorem selector_pass_skips_failing (soup : Soup) (before after : list string)
  (bad : string) :
  (exists e, select soup bad = Raise e) \/ select soup bad = Ok [] ->
  selector_pass soup (before ++ bad :: after)%list
  = selector_pass soup (before ++ after)%list.
Proof.
  intros H. rewrite !selector_pass_scan. f_equal.
  rewrite !encountered_app. f_equal.
  change (bad :: after) with ([bad] ++ after)%list.
  rewrite encountered_app.
  assert (E : encountered soup [bad] = []).
  { unfold encountered, matches. simpl.
    destruct H as [[e ->] | ->]; reflexivity. }
  now rewrite E.
Qed.

(** X6: selectors appended to the list cannot make the pass lose its
    winner: the new winner is the old one, or a strictly longer element
    matched by an added selector. *)
Theorem selector_pass_append (soup : Soup) (sels more : list string) (e : Tag) :
  selector_pass soup sels = Some e ->
  exists e',
    selector_pass soup (sels ++ more)%list = Some e'
    /\ (e' = e
        \/ (text_length soup e < text_length soup e'
            /\ In e' (encountered soup more))).
Proof.
  intros H. rewrite selector_pass_scan in H.
  rewrite selector_pass_scan, encountered_app.
  unfold scan in *. rewrite fold_left_app, H.
  pose proof (scan_spec _ (text_length soup) 100 (encountered soup sels)) as S.
  unfold scan in S. rewrite H in S. destruct S as [Hf _].
  fold (scan (text_length soup) 100 (Some e) (encountered soup more)).
  rewrite scan_some.
  destruct (fold_first_max _ (text_length soup)
              (fun a => 100 < text_length soup a)
              (keep (text_length soup) 100)
              (keep_step _ (text_length soup) 100)
              (encountered soup more) e Hf) as [_ M].
  remember (fold_left (keep (text_length soup) 100)
              (encountered soup more) e) as e' eqn:Ee'.
  exists e'. split; [reflexivity|].
  destruct M as (l1 & l2 & E & H1 & H2).
  destruct l1 as [|a l1]; simpl in E; injection E as Ea El.
  - left. now symmetry.
  - right. subst a. split.
    + now apply Forall_inv in H1.
    + rewrite El. apply in_or_app. right. now left.
Qed.

(** X7: whatever the scorer returns has more than 100 characters of text,
    and it returns nothing exactly when no matched element has more than
    100 characters and no div passes the test of the largest-text-div
    pass. *)
Theorem find_main_content_floor (soup : Soup) :
  (forall e, find_main_content soup = Some e -> 100 < text_length soup e)
  /\ (find_main_content soup = None <->
      (forall x, In x (encountered soup content_selectors) ->
         text_length soup x <= 100)
      /\ (forall d, In d (find_all soup "div") -> is_text_div soup d = false)).
Proof.
  pose proof (selector_pass_spec soup content_selectors) as S.
  pose proof (sort_desc_spec _ snd (text_divs soup)) as D.
  unfold find_main_content, largest_text_div.
  destruct (selector_pass soup content_selectors) as [e0|].
  - split.
    + intros e E. injection E as <-. tauto.
    + split; [discriminate|]. intros [H _]. destruct S as [Hf Hm].
      apply first_max_in in Hm. specialize (H e0 Hm). lia.
  - rewrite Forall_forall in S.
    destruct (sort_desc snd (text_divs soup)) as [|[d0 n] r].
    + split; [discriminate|]. split; [|reflexivity]. intros _.
      split; [exact S|]. intros d Hd.
      destruct (is_text_div soup d) eqn:E; [|reflexivity].
      assert (Hin : In (d, text_length soup d) (text_divs soup))
        by (apply text_divs_in; auto).
      rewrite D in Hin. contradiction.
    + pose proof (first_max_in _ _ _ _ D) as Hin.
      apply text_divs_in in Hin as (Hd & Ht & Hn).
      split.
      * intros e E. injection E as <-. simpl.
        apply is_text_div_iff in Ht. lia.
      * split; [discriminate|]. intros [_ H].
        rewrite (H d0 Hd) in Ht. discriminate.
Qed.

(** X8: ties of the largest-text-div pass go to the div that comes first
    in the document: among the divs that pass the test, every one before
    the result is strictly shorter and none after it is longer. *)
Theorem largest_text_div_first_of_ties (soup : Soup) (d : Tag) :
  largest_text_div soup = Some d ->
  exists before after,
    filter (is_text_div soup) (find_all soup "div")
    = (before ++ d :: after)%list
    /\ Forall (fun x => text_length soup x < text_length soup d) before
    /\ Forall (fun x => text_length soup x <= text_length soup d) after.
Proof.
  intros H. unfold largest_text_div in H.
  pose proof (sort_desc_spec _ snd (text_divs soup)) as D.
  destruct (sort_desc snd (text_divs soup)) as [|[d0 n] r]; [discriminate|].
  injection H as ->.
  destruct D as (l1 & l2 & E & H1 & H2). unfold text_divs in E.
  apply map_eq_app in E as (a & b & Ea & <- & Eb).
  destruct b as [|y b]; [discriminate|]. cbn [map] in Eb.
  injection Eb as Ey <- <-. subst y.
  exists a, b. split; [exact Ea|]. split.
  - rewrite Forall_map in H1. exact H1.
  - rewrite Forall_map in H2. exact H2.
Qed.

End ScorerMore.

Section ScorerRuns.
Import Fixture FixtureMore.

Lemma selector_pass_skips_failing_witness :
  ParseLocalHtml.selector_pass
    (C := with_failing_selector (env ranked_doc) "article"
            (OtherException "Invalid selector"))
    ranked_doc ParseLocalHtml.content_selectors
  = ParseLocalHtml.selector_pass
      (C := with_failing_selector (env ranked_doc) "article"
              (OtherException "Invalid selector"))
      ranked_doc ("main" :: skipn 2 ParseLocalHtml.content_selectors).
Proof.
  apply (selector_pass_skips_failing
           (C := with_failing_selector (env ranked_doc) "article"
                   (OtherException "Invalid selector"))
           ranked_doc ["main"] (skipn 2 ParseLocalHtml.content_selectors)
           "article").
  left. exists (OtherException "Invalid selector"). reflexivity.
Defined.

Lemma selector_pass_append_witness :
  exists e',
    ParseLocalHtml.selector_pass (C := env ranked_doc) ranked_doc
      (["main"] ++ [".content"])%list = Some e'
    /\ (e' = tag_main
        \/ (String.length (tag_text tag_main) < String.length (tag_text e')
            /\ In e' (ParseLocalHtml.encountered (C := env ranked_doc)
                        ranked_doc [".content"]))).
Proof.
  apply (selector_pass_append (C := env ranked_doc) ranked_doc
           ["main"] [".content"] tag_main).
  vm_compute. reflexivity.
Defined.

Lemma find_main_content_floor_witness :
  100 < String.length (tag_text tag_story).
Proof.
  apply (proj1 (find_main_content_floor (C := env banner_doc) banner_doc)
           tag_story).
  vm_compute. reflexivity.
Defined.

Lemma largest_text_div_first_of_ties_witness :
  exists before after,
    filter (ParseLocalHtml.is_text_div (C := env two_divs_doc) two_divs_doc)
           (doc_divs two_divs_doc)
    = (before ++ tag_story :: after)%list
    /\ Forall (fun x => String.length (tag_text x)
                        < String.length (tag_text tag_story)) before
    /\ Forall (fun x => String.length (tag_text x)
                        <= String.length (tag_text tag_story)) after.
Proof.
  apply (largest_text_div_first_of_ties (C := env two_divs_doc) two_divs_doc
           tag_story).
  vm_compute. reflexivity.
Defined.

End ScorerRuns.

(** ** The shape of a recovered URL *)

Section UrlShape.
Context {C : Collaborators}.
Import ParseLocalHtml.

Lemma match_literal_app (lit s r : string) :
  Re.match_literal lit s = Some r -> s = lit ++ r.
Proof.
  revert s. induction lit as [|a lit IH]; intros s H.
  - simpl in H. destruct s; injection H as H; now subst r.
  - destruct s as [|b s]; [discriminate|]. simpl in H.
    destruct (Ascii.eqb a b) eqn:E; [|discriminate].
    apply Ascii.eqb_eq in E. subst b. simpl. f_equal. now apply IH.
Qed.

Lemma prefix_app_self (p r : string) : String.prefix p (p ++ r) = true.
Proof.
  induction p as [|c p IH]; simpl; [now destruct r|].
  destruct (Ascii.ascii_dec c c) as [_|N]; [exact IH | now destruct N].
Qed.

Lemma nonspace_length (s : string) :
  String.length (nonspace s) <= String.length s.
Proof.
  induction s as [|c s IH]; simpl; [lia|].
  destruct (isspace c); simpl; lia.
Qed.

Lemma nonspace_fixed_cons (c : ascii) (r : string) :
  nonspace (String c r) = String c r -> isspace c = false /\ nonspace r = r.
Proof.
  simpl. destruct (isspace c) eqn:E.
  - intros H. pose proof (nonspace_length r) as L. rewrite H in L.
    simpl in L. lia.
  - intros H. injection H as H. auto.
Qed.

Lemma nonspace_fixed_rstrip (s : string) : nonspace s = s -> rstrip s = s.
Proof.
  induction s as [|c r IH]; [reflexivity|]. intros H.
  apply nonspace_fixed_cons in H as [Hc Hr].
  rewrite (rstrip_head c r Hc). now rewrite (IH Hr).
Qed.

Lemma nonspace_fixed_strip (s : string) : nonspace s = s -> strip s = s.
Proof.
  intros H. unfold strip.
  assert (E : lstrip s = s).
  { destruct s as [|c r]; [reflexivity|].
    apply nonspace_fixed_cons in H as [Hc _]. simpl. now rewrite Hc. }
  rewrite E. now apply nonspace_fixed_rstrip.
Qed.

Lemma take_while_nonspace (s : string) :
  nonspace (Re.take_while (fun c => negb (isspace c)) s)
  = Re.take_while (fun c => negb (isspace c)) s.
Proof.
  induction s as [|c s IH]; [reflexivity|]. simpl.
  destruct (isspace c) eqn:E; simpl; [reflexivity|].
  now rewrite E, IH.
Qed.

Lemma match_here_shape (s g : string) :
  Re.match_here s = Some g ->
  String.prefix "saved from url=(" s = true
  /\ exists rest,
       (g = "http://" ++ rest \/ g = "https://" ++ rest)
       /\ nonspace rest = rest /\ rest <> "".
Proof.
  unfold Re.match_here, Re.and_then. intros H.
  destruct (Re.match_literal "saved from url=(" s) as [r1|] eqn:E1;
    [|discriminate].
  apply match_literal_app in E1. subst s.
  split; [apply prefix_app_self|].
  destruct (String.length (Re.drop_while isdigit r1) <? String.length r1)%nat;
    [|discriminate].
  destruct (Re.match_literal ")" (Re.drop_while isdigit r1)) as [r3|];
    [|discriminate].
  destruct (Re.match_literal "http" r3) as [r4|]; [|discriminate].
  destruct (Re.match_literal "s" r4) as [r|].
  - destruct (Re.match_literal "://" r) as [r6|]; [|discriminate].
    destruct (truthy (Re.take_while (fun c => negb (isspace c)) r6)) eqn:T;
      [|discriminate].
    injection H as <-. eexists. split; [right; reflexivity|].
    split; [apply take_while_nonspace|].
    intros E. rewrite E in T. discriminate.
  - destruct (Re.match_literal "://" r4) as [r6|]; [|discriminate].
    destruct (truthy (Re.take_while (fun c => negb (isspace c)) r6)) eqn:T;
      [|discriminate].
    injection H as <-. eexists. split; [left; reflexivity|].
    split; [apply take_while_nonspace|].
    intros E. rewrite E in T. discriminate.
Qed.

Lemma contains_prefix (needle hay : string) :
  String.prefix needle hay = true -> contains needle hay = true.
Proof. intros H. destruct hay; simpl; simpl in H; now rewrite H. Qed.

Lemma search_shape (s g : string) :
  Re.search s = Some g ->
  contains "saved from url=(" s = true
  /\ exists rest,
       (g = "http://" ++ rest \/ g = "https://" ++ rest)
       /\ nonspace rest = rest /\ rest <> "".
Proof.
  induction s as [|c s IH]; intros H.
  - discriminate.
  - cbn [Re.search] in H.
    destruct (Re.match_here (String c s)) eqn:E.
    + injection H as ->. apply match_here_shape in E as [P R].
      split; [now apply contains_prefix | exact R].
    + destruct (IH H) as [P R]. split; [|exact R].
      cbn [contains]. rewrite P. apply orb_true_r.
Qed.

Lemma recover_url_loop_some (l : list NavigableString) (u : string) :
  recover_url_loop l = Some u ->
  exists n g, In n l /\ Re.search (ns_text n) = Some g /\ u = strip g.
Proof.
  induction l as [|n l IH]; [discriminate|]. cbn [recover_url_loop].
  destruct (contains "saved from url" (ns_text n)).
  - destruct (Re.search (ns_text n)) as [g|] eqn:E.
    + intros H. injection H as <-. exists n, g.
      split; [now left | split; [exact E | reflexivity]].
    + intros H. destruct (IH H) as (m & g & Hm & Hg & Hu).
      exists m, g. repeat split; auto. now right.
  - intros H. destruct (IH H) as (m & g & Hm & Hg & Hu).
    exists m, g. repeat split; auto. now right.
Qed.

(** X9: a recovered URL is never empty: it starts with "http://" or
    "https://", goes on with at least one more character and holds no
    whitespace (so the final [strip] changes nothing); it was read from a
    string node that holds "saved from url=(".  Hence the "Source:" line is
    printed whenever the recovery succeeds. *)
Theorem recover_url_shape (soup : Soup) (u : string) :
  recover_url soup = Some u ->
  (exists rest, (u = "http://" ++ rest \/ u = "https://" ++ rest)
                /\ rest <> "")
  /\ nonspace u = u
  /\ (exists n, In n (navigable_strings soup)
                /\ contains "saved from url=(" (ns_text n) = true
                /\ Re.search (ns_text n) = Some u)
  /\ forall title content,
       format_output title (Some u) content
       = join_nl [ "# " ++ fmt_opt title; "Source: " ++ u; separator;
                   if truthy_opt content then fmt_opt content
                   else "No content extracted" ].
Proof.
  intros H. unfold recover_url, find_all_strings in H.
  apply recover_url_loop_some in H as (n & g & Hn & Hg & Hu).
  apply filter_In in Hn as [Hn _].
  destruct (search_shape _ _ Hg) as (Hc & rest & Hs & Hr & Hne).
  assert (Hg' : nonspace g = g).
  { destruct Hs as [-> | ->]; rewrite nonspace_app, Hr; reflexivity. }
  assert (Eu : u = g) by (rewrite Hu; now apply nonspace_fixed_strip).
  subst u. rewrite Eu in *. clear Eu.
  split; [now exists rest|]. split; [exact Hg'|].
  split; [now exists n|].
  intros title content. unfold format_output.
  destruct Hs as [-> | ->]; reflexivity.
Qed.

End UrlShape.

Lemma recover_url_shape_witness :
  exists rest,
    ("https://example.com/page" = "http://" ++ rest
     \/ "https://example.com/page" = "https://" ++ rest)
    /\ rest <> "".
Proof.
  apply (recover_url_shape (C := Fixture.env Fixture.comment_doc)
           Fixture.comment_doc "https://example.com/page").
  reflexivity.
Defined.

(** ** Order and gating of the stages *)

Section Stages.
Context {C : Collaborators}.

Lemma trace_bind {A B : Type} (m : M A) (f : A -> M B) :
  trace_of (bind m f)
  = (trace_of m
     ++ match outcome_of m with
        | Ok a => trace_of (f a)
        | Raise _ => []
        end)%list.
Proof.
  destruct m as [t [a|e]]; simpl.
  - now destruct (f a).
  - now rewrite app_nil_r.
Qed.

Lemma trace_method1 (html : string) (url : option string) (method : string) :
  trace_of (ParseLocalHtml.method1 html url method)
  = if in_list method ["trafilatura"; "auto"] then [EngineInvoked] else [].
Proof.
  unfold ParseLocalHtml.method1.
  destruct (in_list method ["trafilatura"; "auto"]); [|reflexivity].
  rewrite trace_bind. simpl. now destruct (trafilatura_extract html url).
Qed.

Lemma trace_method2 (soup : Soup) (content : option string) (method : string) :
  trace_of (ParseLocalHtml.method2 soup content method)
  = if negb (truthy_opt content) && in_list method ["beautifulsoup"; "auto"]
    then [ScorerInvoked] else [].
Proof.
  unfold ParseLocalHtml.method2.
  destruct (negb (truthy_opt content)
            && in_list method ["beautifulsoup"; "auto"]); [|reflexivity].
  rewrite trace_bind. simpl.
  destruct (ParseLocalHtml.find_main_content _); [|reflexivity].
  now destruct (md _).
Qed.

Lemma trace_method3 (soup : Soup) (content : option string) :
  trace_of (ParseLocalHtml.method3 soup content)
  = if negb (truthy_opt content) then [RawTextInvoked] else [].
Proof.
  unfold ParseLocalHtml.method3.
  destruct (negb (truthy_opt content)); [|reflexivity].
  rewrite trace_bind. simpl. now destruct (find soup "body").
Qed.

(** X10: in every run of [parse_html_file] the stages entered are a
    selection of engine, selector stage, raw text, in this order and each
    at most once; the engine is entered only for the methods "trafilatura"
    and "auto", the selector stage only for "beautifulsoup" and "auto". *)
Theorem parse_html_file_stages (file_path method : string) :
  exists b1 b2 b3 : bool,
    trace_of (ParseLocalHtml.parse_html_file file_path method)
    = ((if b1 then [EngineInvoked] else [])
       ++ (if b2 then [ScorerInvoked] else [])
       ++ (if b3 then [RawTextInvoked] else []))%list
    /\ (b1 = true -> in_list method ["trafilatura"; "auto"] = true)
    /\ (b2 = true -> in_list method ["beautifulsoup"; "auto"] = true).
Proof.
  unfold ParseLocalHtml.parse_html_file. rewrite trace_bind.
  destruct (read_file file_path) as [html|e]; simpl.
  2:{ exists false, false, false. repeat split; discriminate. }
  rewrite trace_bind. unfold ParseLocalHtml.cascade.
  rewrite trace_bind, trace_method1.
  set (soup := BeautifulSoup html).
  set (url := ParseLocalHtml.recover_url soup).
  destruct (outcome_of (ParseLocalHtml.method1 html url method))
    as [c1|e1] eqn:E1.
  2:{ rewrite (outcome_bind_raise _ _ e1 E1).
      exists (in_list method ["trafilatura"; "auto"]), false, false.
      split; [now rewrite !app_nil_r | split; [auto | discriminate]]. }
  rewrite (outcome_bind _ _ c1 E1), trace_bind, trace_method2.
  destruct (outcome_of (ParseLocalHtml.method2 soup c1 method))
    as [sc|e2] eqn:E2.
  2:{ rewrite (outcome_bind_raise _ _ e2 E2).
      exists (in_list method ["trafilatura"; "auto"]),
        (negb (truthy_opt c1) && in_list method ["beautifulsoup"; "auto"]),
        false.
      split; [now rewrite !app_nil_r|]. split; [auto|].
      intros H. now apply andb_true_iff in H. }
  rewrite trace_method3.
  exists (in_list method ["trafilatura"; "auto"]),
    (negb (truthy_opt c1) && in_list method ["beautifulsoup"; "auto"]),
    (negb (truthy_opt (snd sc))).
  split.
  - rewrite (outcome_bind _ _ sc E2).
    destruct (outcome_of (ParseLocalHtml.method3 (fst sc) (snd sc)));
      simpl; now rewrite ?app_nil_r, ?app_assoc.
  - split; [auto|]. intros H. now apply andb_true_iff in H.
Qed.

(** X11: a method string outside the three known ones switches both
    extractors off.  [parse_html_file] then goes straight to the raw text
    of the body, and [process_webpage] reports a failed extraction without
    entering any stage. *)
Theorem unknown_method (method : string) :
  in_list method ["trafilatura"; "auto"] = false ->
  in_list method ["beautifulsoup"; "auto"] = false ->
  (forall file_path html,
     read_file file_path = Ok html ->
     let soup := BeautifulSoup html in
     let title := match soup_title soup with
                  | Some t => t
                  | None => Some "Untitled"
                  end in
     ParseLocalHtml.parse_html_file file_path method
     = ([RawTextInvoked],
        Ok (ParseLocalHtml.format_output title
              (ParseLocalHtml.recover_url soup)
              match find soup "body" with
              | Some body =>
                  Some (ParseLocalHtml.clean_text
                          (get_text_lines
                             (decompose_in soup body
                                ["script"; "style"; "nav"; "header";
                                 "footer"])
                             body))
              | None => None
              end)))
  /\ (forall url verify_ssl html,
        requests_get url verify_ssl = Ok html ->
        WebpageToLlm.process_webpage url method verify_ssl
        = ([], Ok "Error processing webpage: Failed to extract content from webpage")).
Proof.
  intros H1 H2. split.
  - intros file_path html Hr. cbv zeta.
    unfold ParseLocalHtml.parse_html_file, ParseLocalHtml.cascade,
      ParseLocalHtml.method1, ParseLocalHtml.method2, ParseLocalHtml.method3.
    rewrite Hr, H1, H2. simpl.
    now destruct (find (BeautifulSoup html) "body").
  - intros url verify_ssl html Hg.
    unfold WebpageToLlm.process_webpage, WebpageToLlm.fetch_webpage.
    rewrite Hg, H1, H2. reflexivity.
Qed.

End Stages.

Lemma parse_html_file_stages_witness :
  exists b1 b2 b3 : bool,
    trace_of (ParseLocalHtml.parse_html_file
                (C := Fixture.env Fixture.empty_doc) "page.html" "auto")
    = ((if b1 then [EngineInvoked] else [])
       ++ (if b2 then [ScorerInvoked] else [])
       ++ (if b3 then [RawTextInvoked] else []))%list
    /\ (b1 = true -> in_list "auto" ["trafilatura"; "auto"] = true)
    /\ (b2 = true -> in_list "auto" ["beautifulsoup"; "auto"] = true).
Proof.
  exact (parse_html_file_stages (C := Fixture.env Fixture.empty_doc)
           "page.html" "auto").
Defined.

Lemma unknown_method_witness :
  ParseLocalHtml.parse_html_file (C := Fixture.env Fixture.body_doc)
    "page.html" "readability"
  = ([RawTextInvoked],
     Ok (join_nl ["# Untitled"; separator; "No content extracted"]))
  /\ WebpageToLlm.process_webpage (C := Fixture.env Fixture.body_doc)
       "https://example.com/page" "readability" true
     = ([], Ok "Error processing webpage: Failed to extract content from webpage").
Proof.
  destruct (unknown_method (C := Fixture.env Fixture.body_doc) "readability"
              eq_refl eq_refl) as [P W].
  split.
  - apply (P "page.html" ""). reflexivity.
  - apply (W "https://example.com/page" true ""). reflexivity.
Defined.

(** ** A rejected selector in the first-match front ends *)

Section FirstMatchFailure.
Context {C : Collaborators}.

Ltac run_m :=
  unfold bind, lift, tell, ret, raise, try_except; cbv beta iota.

Lemma first_match_raises (soup : Soup) (s1 s2 : list string) (bad : string)
  (e : exn) :
  Forall (fun s => select soup s = Ok []) s1 ->
  select soup bad = Raise e ->
  first_match soup (s1 ++ bad :: s2)%list = Raise e.
Proof.
  intros H1 Hb. induction s1 as [|a s1 IH]; simpl; unfold select_one.
  - now rewrite Hb.
  - inversion H1 as [|? ? Ha Hs]; subst. rewrite Ha. simpl. now apply IH.
Qed.

(** X12: the first-match walk has no handler around [select_one].  When a
    selector is rejected before any selector has matched, the Safari
    scorer raises, and [process_with_safari] returns "Error: " followed by
    the message instead of going on to the divs or the body. *)
Theorem first_match_selector_failure (url method : string) (w : Z)
  (html title : string) (c : option string) (s1 s2 : list string)
  (bad : string) (e : exn) :
  in_list method ["beautifulsoup"; "auto"] = true ->
  fetch_with_safari url w = Ok (html, title) ->
  outcome_of (engine_stage html url method) = Ok c ->
  truthy_opt c = false ->
  WebpageToLlmSafari.selectors = (s1 ++ bad :: s2)%list ->
  Forall (fun s =>
            select (decompose_all (BeautifulSoup html)
                      ["script"; "style"; "nav"; "header"; "footer"; "aside"])
                   s = Ok []) s1 ->
  select (decompose_all (BeautifulSoup html)
            ["script"; "style"; "nav"; "header"; "footer"; "aside"]) bad
  = Raise e ->
  WebpageToLlmSafari.find_main_content
    (decompose_all (BeautifulSoup html)
       ["script"; "style"; "nav"; "header"; "footer"; "aside"])
  = Raise e
  /\ outcome_of (WebpageToLlmSafari.process_with_safari url method w)
     = Ok ("Error: " ++ str_exn e).
Proof.
  intros Hm Hf He Hc Hs H1 Hb.
  assert (F : WebpageToLlmSafari.find_main_content
                (decompose_all (BeautifulSoup html)
                   ["script"; "style"; "nav"; "header"; "footer"; "aside"])
              = Raise e).
  { unfold WebpageToLlmSafari.find_main_content.
    rewrite Hs, (first_match_raises _ s1 s2 bad e H1 Hb). reflexivity. }
  split; [exact F|].
  unfold WebpageToLlmSafari.process_with_safari,
    WebpageToLlmSafari.extract_content.
  rewrite Hf, Hm. run_m.
  destruct (engine_stage html url method) as [t r].
  simpl in He. subst r. cbv beta iota. rewrite Hc. cbv beta iota.
  rewrite F. reflexivity.
Qed.

End FirstMatchFailure.

Lemma first_match_selector_failure_witness :
  outcome_of
    (WebpageToLlmSafari.process_with_safari
       (C := FixtureMore.with_failing_selector
               (Fixture.env Fixture.ranked_doc) "main"
               (OtherException "Invalid selector"))
       "https://example.com/page" "auto" 10%Z)
  = Ok "Error: Invalid selector".
Proof.
  apply (proj2 (first_match_selector_failure
                  (C := FixtureMore.with_failing_selector
                          (Fixture.env Fixture.ranked_doc) "main"
                          (OtherException "Invalid selector"))
                  "https://example.com/page" "auto" 10%Z "" "Docs" None
                  [] (tl WebpageToLlmSafari.selectors) "main"
                  (OtherException "Invalid selector")
                  eq_refl eq_refl eq_refl eq_refl eq_refl
                  (Forall_nil _) eq_refl)).
Defined.

(** ** The title line *)

Section TitleLine.
Context {C : Collaborators}.

Lemma format_output_head (title url content : option string) :
  exists rest,
    ParseLocalHtml.format_output title url content
    = "# " ++ fmt_opt title ++ String newline rest.
Proof.
  unfold ParseLocalHtml.format_output.
  destruct (truthy_opt url); eexists; reflexivity.
Qed.

Lemma process_webpage_outcome (url method : string) (verify_ssl : bool)
  (html : string) :
  requests_get url verify_ssl = Ok html ->
  exists doc : option string -> string,
    (forall content, exists rest,
       doc content
       = "# "
         ++ match soup_title (BeautifulSoup html) with
            | Some (Some (String c t)) => String c t
            | _ => "Untitled"
            end
         ++ String newline rest)
    /\ outcome_of (WebpageToLlm.process_webpage url method verify_ssl)
       = Ok match (if in_list method ["trafilatura"; "auto"]
                   then trafilatura_extract html (Some url)
                   else Ok None) with
            | Raise e => WebpageToLlmReport.report e
            | Ok c =>
                match (if negb (truthy_opt c)
                          && in_list method ["beautifulsoup"; "auto"]
                       then WebpageToLlm.extract_with_beautifulsoup html url
                       else Ok c) with
                | Raise e => WebpageToLlmReport.report e
                | Ok c2 =>
                    if truthy_opt c2 then doc c2
                    else "Error processing webpage: Failed to extract content from webpage"
                end
            end.
Proof.
  intros Hg.
  exists (fun content =>
            join_nl
              (List.app
                 ["# " ++ or_default
                            (WebpageToLlm.meta_title
                               (WebpageToLlm.extract_metadata
                                  (BeautifulSoup html) url)) "Untitled";
                  "Source: " ++ url]
                 (List.app
                    (if truthy_opt
                          (WebpageToLlm.meta_desc
                             (WebpageToLlm.extract_metadata
                                (BeautifulSoup html) url))
                     then ["Description: "
                           ++ fmt_opt
                                (WebpageToLlm.meta_desc
                                   (WebpageToLlm.extract_metadata
                                      (BeautifulSoup html) url))]
                     else [])
                    [separator; fmt_opt content]))).
  split.
  - intros content. unfold WebpageToLlm.extract_metadata.
    cbn [WebpageToLlm.meta_title WebpageToLlm.meta_desc].
    destruct (soup_title (BeautifulSoup html)) as [[[|c0 t0]|]|];
      destruct (truthy_opt (meta_description (BeautifulSoup html)));
      eexists; reflexivity.
  - unfold WebpageToLlm.process_webpage, WebpageToLlm.fetch_webpage,
      WebpageToLlm.extract_with_trafilatura.
    rewrite Hg. unfold bind, lift, tell, ret, raise, try_except.
    cbv beta iota.
    destruct (in_list method ["trafilatura"; "auto"]); cbv beta iota.
    + destruct (trafilatura_extract html (Some url)) as [c|e1];
        cbv beta iota; [|destruct e1; reflexivity].
      destruct (truthy_opt c) eqn:Tc; cbn [negb andb]; cbv beta iota.
      * rewrite Tc. reflexivity.
      * destruct (in_list method ["beautifulsoup"; "auto"]); cbv beta iota.
        -- destruct (WebpageToLlm.extract_with_beautifulsoup html url)
             as [b|e2]; cbv beta iota; [|destruct e2; reflexivity].
           destruct (truthy_opt b); reflexivity.
        -- rewrite Tc. reflexivity.
    + cbn [truthy_opt negb andb].
      destruct (in_list method ["beautifulsoup"; "auto"]); cbv beta iota;
        [|reflexivity].
      destruct (WebpageToLlm.extract_with_beautifulsoup html url)
        as [b|e2]; cbv beta iota; [|destruct e2; reflexivity].
      destruct (truthy_opt b); reflexivity.
Qed.

(** X13: the two front ends treat a missing title differently.
    [parse_html_file] prints whatever [soup.title.string] is: "Untitled"
    only when there is no title element, "None" when the element holds no
    single string, and nothing at all when the string is empty.
    [process_webpage] prints "Untitled" in all three cases, for every
    method and whichever extractor gave the content: what it returns is
    either an error report or a document that opens with this title
    line, and it is such a document whenever the engine or the element
    chain gave non-empty content. *)
Theorem title_line :
  (forall file_path method html out,
     read_file file_path = Ok html ->
     outcome_of (ParseLocalHtml.parse_html_file file_path method) = Ok out ->
     exists rest,
       out = "# "
             ++ match soup_title (BeautifulSoup html) with
                | None => "Untitled"
                | Some None => "None"
                | Some (Some t) => t
                end
             ++ String newline rest)
  /\ (forall url method verify_ssl html,
        requests_get url verify_ssl = Ok html ->
        let title := match soup_title (BeautifulSoup html) with
                     | Some (Some (String c t)) => String c t
                     | _ => "Untitled"
                     end in
        (exists out,
           outcome_of (WebpageToLlm.process_webpage url method verify_ssl)
           = Ok out
           /\ ((exists rest, out = "# " ++ title ++ String newline rest)
               \/ (exists e,
                     out = "Error fetching webpage: " ++ str_exn e
                     \/ out = "Error processing webpage: " ++ str_exn e)))
        /\ (forall s,
              in_list method ["trafilatura"; "auto"] = true ->
              trafilatura_extract html (Some url) = Ok (Some s) ->
              s <> "" ->
              exists rest,
                outcome_of (WebpageToLlm.process_webpage url method verify_ssl)
                = Ok ("# " ++ title ++ String newline rest))
        /\ (forall c s,
              in_list method ["beautifulsoup"; "auto"] = true ->
              in_list method ["trafilatura"; "auto"] = false
              \/ (trafilatura_extract html (Some url) = Ok c
                  /\ truthy_opt c = false) ->
              WebpageToLlm.extract_with_beautifulsoup html url = Ok (Some s) ->
              s <> "" ->
              exists rest,
                outcome_of (WebpageToLlm.process_webpage url method verify_ssl)
                = Ok ("# " ++ title ++ String newline rest))).
Proof.
  split.
  - intros file_path method html out Hr Ho.
    unfold ParseLocalHtml.parse_html_file in Ho. rewrite Hr in Ho.
    unfold lift, bind in Ho.
    destruct (ParseLocalHtml.cascade html (BeautifulSoup html)
                (ParseLocalHtml.recover_url (BeautifulSoup html)) method)
      as [t [content|e]]; simpl in Ho; [|discriminate].
    injection Ho as <-.
    destruct (format_output_head
                match soup_title (BeautifulSoup html) with
                | Some t0 => t0
                | None => Some "Untitled"
                end
                (ParseLocalHtml.recover_url (BeautifulSoup html)) content)
      as [rest ->].
    exists rest. now destruct (soup_title (BeautifulSoup html)) as [[t0|]|].
  - intros url method verify_ssl html Hg title.
    destruct (process_webpage_outcome url method verify_ssl html Hg)
      as (doc & D & ->).
    fold title in D. split; [|split].
    + eexists. split; [reflexivity|].
      destruct (if in_list method ["trafilatura"; "auto"]
                then trafilatura_extract html (Some url)
                else Ok None) as [c|e1].
      2:{ right. exists e1. destruct e1; [left | right | right]; reflexivity. }
      destruct (if negb (truthy_opt c)
                   && in_list method ["beautifulsoup"; "auto"]
                then WebpageToLlm.extract_with_beautifulsoup html url
                else Ok c) as [c2|e2].
      2:{ right. exists e2. destruct e2; [left | right | right]; reflexivity. }
      destruct (truthy_opt c2).
      * left. apply D.
      * right.
        exists (ValueError "Failed to extract content from webpage").
        right. reflexivity.
    + intros s M1 T Hs. rewrite M1, T.
      cbn [truthy_opt]. rewrite (truthy_nonempty s Hs).
      cbn [negb andb truthy_opt]. rewrite (truthy_nonempty s Hs).
      destruct (D (Some s)) as [rest ->]. now exists rest.
    + intros c s M2 Hc B Hs.
      assert (E : (if in_list method ["trafilatura"; "auto"]
                   then trafilatura_extract html (Some url)
                   else Ok None)
                  = Ok (if in_list method ["trafilatura"; "auto"]
                        then c else None)
                  /\ truthy_opt (if in_list method ["trafilatura"; "auto"]
                                 then c else None) = false).
      { destruct Hc as [-> | [T Tc]]; [now split|].
        rewrite T. destruct (in_list method ["trafilatura"; "auto"]);
          now split. }
      destruct E as [-> Tc]. rewrite Tc, M2, B.
      cbn [negb andb truthy_opt]. rewrite (truthy_nonempty s Hs).
      destruct (D (Some s)) as [rest ->]. now exists rest.
Qed.

End TitleLine.

Lemma title_line_witness :
  (exists rest,
     join_nl ["# None"; separator; "Engine output"]
     = "# " ++ "None" ++ String newline rest)
  /\ (exists rest,
        outcome_of (WebpageToLlm.process_webpage
                      (C := Fixture.env FixtureMore.untitled_doc)
                      "https://example.com/page" "trafilatura" true)
        = Ok ("# " ++ "Untitled" ++ String newline rest))
  /\ (exists rest,
        outcome_of (WebpageToLlm.process_webpage
                      (C := Fixture.env Fixture.ranked_doc)
                      "https://example.com/page" "beautifulsoup" true)
        = Ok ("# " ++ "Untitled" ++ String newline rest)).
Proof.
  split; [|split].
  - destruct (title_line (C := Fixture.env FixtureMore.untitled_doc))
      as [P _].
    apply (P "page.html" "auto" "<html></html>"); reflexivity.
  - destruct (title_line (C := Fixture.env FixtureMore.untitled_doc))
      as [_ W].
    pose proof (W "https://example.com/page" "trafilatura" true
                  "<html></html>" eq_refl) as H.
    cbv zeta in H. destruct H as (_ & E & _).
    apply (E "Engine output"); [reflexivity | reflexivity | discriminate].
  - destruct (title_line (C := Fixture.env Fixture.ranked_doc)) as [_ W].
    pose proof (W "https://example.com/page" "beautifulsoup" true
                  "" eq_refl) as H.
    cbv zeta in H. destruct H as (_ & _ & S).
    apply (S None (Fixture.tag_text Fixture.tag_badge));
      [reflexivity | left; reflexivity | reflexivity | discriminate].
Defined.

(** ** Reading the answer of the AppleScript bridge *)

Section ArcBridge.
Import SaveAndParseArcBridge.

Lemma append_assoc (a b c : string) : (a ++ b) ++ c = a ++ b ++ c.
Proof. induction a as [|x a IH]; simpl; [reflexivity | now rewrite IH]. Qed.

Lemma split_by_no_bar (a rest cur : string) :
  no_bar a = true ->
  split_by "|||" 0 cur (a ++ rest) = split_by "|||" 0 (cur ++ a) rest.
Proof.
  revert cur. induction a as [|c a IH]; intros cur H.
  - simpl. now rewrite append_empty_r.
  - simpl in H. apply andb_true_iff in H as [Hc Ha].
    apply negb_true_iff in Hc.
    change ((String c a) ++ rest) with (String c (a ++ rest)).
    cbn [split_by String.prefix].
    match goal with
    | |- context [Ascii.ascii_dec ?x c] =>
        destruct (Ascii.ascii_dec x c) as [E|_]
    end.
    + subst c. vm_compute in Hc. discriminate.
    + rewrite (IH _ Ha), append_assoc. reflexivity.
Qed.

Lemma split_by_sep (rest cur : string) :
  split_by "|||" 0 cur ("|||" ++ rest)
  = cur :: split_by "|||" 0 "" rest.
Proof.
  change ("|||" ++ rest) with (String bar (String bar (String bar rest))).
  cbn [split_by]. 
  assert (P : String.prefix "|||" (String bar (String bar (String bar rest)))
              = true) by apply (prefix_app_self "|||" rest).
  rewrite P. reflexivity.
Qed.

Lemma split_pieces (pieces : list string) (last cur : string) :
  Forall (fun p => no_bar p = true) pieces ->
  no_bar last = true ->
  split_by "|||" 0 cur
    (fold_right (fun p acc => p ++ "|||" ++ acc) last pieces)
  = match pieces with
    | [] => [cur ++ last]
    | p :: ps => (cur ++ p) :: (ps ++ [last])%list
    end.
Proof.
  intros Hp Hl. revert cur. induction Hp as [|p ps Hp Hps IH]; intros cur.
  - simpl. rewrite <- (append_empty_r last) at 1.
    rewrite (split_by_no_bar last "" cur Hl). reflexivity.
  - cbn [fold_right]. rewrite (split_by_no_bar p _ cur Hp), split_by_sep.
    f_equal. rewrite IH. destruct ps; reflexivity.
Qed.

(** X14: reading [url|||title|||html] back.  When the three parts hold no
    [|] and the whole is free of surrounding whitespace and does not start
    with "ERROR:", the parts come back as they were written.  One more
    [|||] inside the page source makes four pieces and the call raises
    [ValueError]: such a page cannot be read through the bridge. *)
Theorem parse_page_source_spec (url title : string) :
  no_bar url = true -> no_bar title = true ->
  (forall html,
     no_bar html = true ->
     strip (url ++ "|||" ++ title ++ "|||" ++ html)
     = url ++ "|||" ++ title ++ "|||" ++ html ->
     startswith (url ++ "|||" ++ title ++ "|||" ++ html) "ERROR:" = false ->
     parse_page_source (url ++ "|||" ++ title ++ "|||" ++ html)
     = Ok (url, title, html))
  /\ (forall h1 h2,
        no_bar h1 = true -> no_bar h2 = true ->
        strip (url ++ "|||" ++ title ++ "|||" ++ h1 ++ "|||" ++ h2)
        = url ++ "|||" ++ title ++ "|||" ++ h1 ++ "|||" ++ h2 ->
        startswith (url ++ "|||" ++ title ++ "|||" ++ h1 ++ "|||" ++ h2)
          "ERROR:" = false ->
        parse_page_source (url ++ "|||" ++ title ++ "|||" ++ h1 ++ "|||" ++ h2)
        = Raise (ValueError "Unexpected AppleScript output format")).
Proof.
  intros Hu Ht. split.
  - intros html Hh Hs He. unfold parse_page_source. rewrite Hs, He.
    unfold split.
    change (url ++ "|||" ++ title ++ "|||" ++ html)
      with (fold_right (fun p acc => p ++ "|||" ++ acc) html [url; title]).
    rewrite split_pieces; [reflexivity | | exact Hh].
    repeat constructor; assumption.
  - intros h1 h2 H1 H2 Hs He. unfold parse_page_source. rewrite Hs, He.
    unfold split.
    change (url ++ "|||" ++ title ++ "|||" ++ h1 ++ "|||" ++ h2)
      with (fold_right (fun p acc => p ++ "|||" ++ acc) h2 [url; title; h1]).
    rewrite split_pieces; [reflexivity | | exact H2].
    repeat constructor; assumption.
Qed.

Lemma parse_page_source_spec_witness :
  parse_page_source "https://example.com/page|||Docs|||<html></html>"
  = Ok ("https://example.com/page", "Docs", "<html></html>")
  /\ parse_page_source "https://example.com/page|||Docs|||<p>a|||b</p>"
     = Raise (ValueError "Unexpected AppleScript output format").
Proof.
  destruct (parse_page_source_spec "https://example.com/page" "Docs"
              eq_refl eq_refl) as [R F].
  split.
  - apply (R "<html></html>"); reflexivity.
  - apply (F "<p>a" "b</p>"); reflexivity.
Defined.

End ArcBridge.

(** ** The element chain of webpage_to_llm.py *)

Section MainFirst.
Context {C : Collaborators}.

(** X15: in the [or] chain of [extract_with_beautifulsoup] a [main]
    element wins over everything after it, whatever it holds: the result
    is the collapsed markdown of that element.  When that markdown is
    blank the result is the empty string, and [process_webpage] with the
    method "beautifulsoup" reports a failed extraction; the body of the
    page is never looked at. *)
Theorem main_element_first (html url markdown : string) (m : Tag) :
  let soup := decompose_all (BeautifulSoup html)
                ["script"; "style"; "nav"; "header"; "footer"; "aside"] in
  find soup "main" = Some m ->
  md (str_tag soup m) = Ok markdown ->
  WebpageToLlm.extract_with_beautifulsoup html url
  = Ok (Some (collapse markdown))
  /\ (nonspace markdown = "" ->
      forall verify_ssl,
        requests_get url verify_ssl = Ok html ->
        WebpageToLlm.process_webpage url "beautifulsoup" verify_ssl
        = ([ScorerInvoked],
           Ok "Error processing webpage: Failed to extract content from webpage")).
Proof.
  intros soup Hm Hd.
  assert (E : WebpageToLlm.extract_with_beautifulsoup html url
              = Ok (Some (collapse markdown))).
  { unfold WebpageToLlm.extract_with_beautifulsoup. fold soup.
    rewrite Hm. cbn [or_else to_markdown]. now rewrite Hd. }
  split; [exact E|].
  intros Hb verify_ssl Hg.
  apply collapse_empty_iff in Hb.
  unfold WebpageToLlm.process_webpage, WebpageToLlm.fetch_webpage.
  rewrite Hg. cbn [in_list]. 
  unfold bind, lift, tell, ret, raise, try_except. cbn.
  rewrite E, Hb. reflexivity.
Qed.

End MainFirst.

Lemma main_element_first_witness :
  WebpageToLlm.process_webpage (C := Fixture.env FixtureMore.blank_main_doc)
    "https://example.com/page" "beautifulsoup" true
  = ([ScorerInvoked],
     Ok "Error processing webpage: Failed to extract content from webpage").
Proof.
  apply (proj2 (main_element_first
                  (C := Fixture.env FixtureMore.blank_main_doc)
                  "" "https://example.com/page" "   "
                  (Fixture.mkTag 9 "   ") eq_refl eq_refl)
               eq_refl true eq_refl).
Defined.

(** ** The clipboard step of save_and_parse_arc.py *)

Section Clipboard.
Context {C : Collaborators}.

(** X16: the Arc script copies the document to the clipboard before it
    prints it, inside the same [try].  The document reaches standard
    output exactly when the copy went through; when the clipboard command
    raises, the script exits with status 1 and the message, and the
    extracted document is not printed. *)
Theorem clipboard_before_print (url title html : string) (c : option string) :
  get_arc_page_source = Ok (url, title, html) ->
  outcome_of (SaveAndParseArc.extract_content html url "auto") = Ok c ->
  let content := if truthy_opt c then fmt_opt c
                 else soup_text_lines (BeautifulSoup html) in
  let result := join_nl ["# " ++ title; "Source: " ++ url; separator; content] in
  outcome_of SaveAndParseArc.main
  = match pbcopy result with
    | Ok _ => Ok (SaveAndParseArc.Printed result)
    | Raise e => Ok (SaveAndParseArc.SysExit 1 ("Error: " ++ str_exn e))
    end.
Proof.
  intros Hs Hc content result. unfold SaveAndParseArc.main.
  rewrite Hs. unfold bind, lift, tell, ret, raise, try_except. cbv beta iota.
  destruct (SaveAndParseArc.extract_content html url "auto") as [t r].
  simpl in Hc. subst r. cbv beta iota.
  unfold result, content.
  destruct (truthy_opt c); cbn [negb]; cbv beta iota;
    destruct (pbcopy _); reflexivity.
Qed.

End Clipboard.

Lemma clipboard_before_print_witness :
  outcome_of
    (SaveAndParseArc.main
       (C := FixtureMore.with_failing_clipboard
               (Fixture.env Fixture.engine_doc)
               (OtherException "No such file or directory: pbcopy")))
  = Ok (SaveAndParseArc.SysExit 1
          "Error: No such file or directory: pbcopy").
Proof.
  exact (clipboard_before_print
           (C := FixtureMore.with_failing_clipboard
                   (Fixture.env Fixture.engine_doc)
                   (OtherException "No such file or directory: pbcopy"))
           _ _ _ _ eq_refl eq_refl).
Defined.
